(** * firmware-amp: the application core (app.cpp) and the light model (models/light.h)

    A shallow embedding of [src/main/include/models/light.h] and
    [src/main/src/app.cpp].  The FreeRTOS primitives that the code calls are
    modelled in [FreeRTOS], the declarations of [models/light.h] in [light_h]
    and the member functions of [App] in [app_cpp].  [Observations] says what
    an observer sees of a run, [Scenario] has concrete states, and
    [LightTheory] and [AppTheory] hold the properties. *)

From Stdlib Require Import List ZArith NArith Bool String Lia Sorting.Sorted Sorting.Permutation.
Import ListNotations.
Open Scope string_scope.
Open Scope list_scope.
Open Scope nat_scope.

(* ------------------------------------------------------------------ *)
(** ** FreeRTOS queues, as the code uses them (non-blocking calls only) *)
Module FreeRTOS.

(** A queue created by [xQueueCreate(uxQueueLength, uxItemSize)]: a bounded FIFO. *)
Record Queue (A : Type) := mkQueue { capacity : nat; items : list A }.
Arguments mkQueue {A} _ _.
Arguments capacity {A} _.
Arguments items {A} _.

Definition xQueueCreate {A : Type} (uxQueueLength : nat) : Queue A :=
  mkQueue uxQueueLength [].

Definition uxQueueMessagesWaiting {A : Type} (q : Queue A) : nat :=
  List.length (items q).

(** [xQueueReceive(q, &buf, 0)]: with nothing waiting it returns pdFALSE at once
    and leaves the buffer alone; otherwise it copies the oldest item into the
    buffer, removes it and returns pdTRUE. *)
Definition xQueueReceive {A : Type} (q : Queue A) (buf : option A)
  : bool * option A * Queue A :=
  match items q with
  | [] => (false, buf, q)
  | x :: rest => (true, Some x, mkQueue (capacity q) rest)
  end.

(** [xQueueSend(q, &item, 0)]: appended when there is room, dropped when full. *)
Definition xQueueSend {A : Type} (q : Queue A) (item : A) : bool * Queue A :=
  if List.length (items q) <? capacity q
  then (true, mkQueue (capacity q) (items q ++ [item]))
  else (false, q).

(** A task handle; [NULL] is [None] at the places that hold one. *)
Definition TaskHandle := nat.
(** A handle of a queue that another object owns. *)
Definition QueueHandle := nat.

End FreeRTOS.

(* ------------------------------------------------------------------ *)
(** ** models/light.h *)
Module light_h.

(** An enum declaration as written: each enumerator with its initialiser,
    if it has one. *)
Definition EnumDecl := list (string * option Z).

(** The C++ numbering rule: an enumerator without initialiser is the previous
    one plus one, the first one zero. *)
Fixpoint enum_values (next : Z) (d : EnumDecl) : list (string * Z) :=
  match d with
  | [] => []
  | (name, Some v) :: d' => (name, v) :: enum_values (v + 1) d'
  | (name, None) :: d' => (name, next) :: enum_values (next + 1) d'
  end.

Fixpoint enumerator (name : string) (vs : list (string * Z)) : option Z :=
  match vs with
  | [] => None
  | (n, v) :: vs' => if String.eqb n name then Some v else enumerator name vs'
  end.

(** [enum LightCommand], light.h lines 61-73. *)
Definition LightCommand_decl : EnumDecl :=
  [ ("NoCommand", Some 0%Z);
    ("LightsOff", None);
    ("LightsReset", None);
    ("LightsBrakeNormal", None);
    ("LightsBrakeActive", None);
    ("LightsHeadlightNormal", None);
    ("LightsHeadlightBright", None);
    ("LightsTurnCenter", None);
    ("LightsTurnLeft", None);
    ("LightsTurnRight", None);
    ("LightsTurnHazard", None) ].

Inductive LightCommand : Type :=
| NoCommand
| LightsOff
| LightsReset
| LightsBrakeNormal
| LightsBrakeActive
| LightsHeadlightNormal
| LightsHeadlightBright
| LightsTurnCenter
| LightsTurnLeft
| LightsTurnRight
| LightsTurnHazard.

Definition LightCommand_all : list LightCommand :=
  [ NoCommand; LightsOff; LightsReset; LightsBrakeNormal; LightsBrakeActive;
    LightsHeadlightNormal; LightsHeadlightBright; LightsTurnCenter;
    LightsTurnLeft; LightsTurnRight; LightsTurnHazard ].

Definition LightCommand_name (c : LightCommand) : string :=
  match c with
  | NoCommand => "NoCommand"
  | LightsOff => "LightsOff"
  | LightsReset => "LightsReset"
  | LightsBrakeNormal => "LightsBrakeNormal"
  | LightsBrakeActive => "LightsBrakeActive"
  | LightsHeadlightNormal => "LightsHeadlightNormal"
  | LightsHeadlightBright => "LightsHeadlightBright"
  | LightsTurnCenter => "LightsTurnCenter"
  | LightsTurnLeft => "LightsTurnLeft"
  | LightsTurnRight => "LightsTurnRight"
  | LightsTurnHazard => "LightsTurnHazard"
  end.

Definition LightCommand_value (c : LightCommand) : Z :=
  match c with
  | NoCommand => 0
  | LightsOff => 1
  | LightsReset => 2
  | LightsBrakeNormal => 3
  | LightsBrakeActive => 4
  | LightsHeadlightNormal => 5
  | LightsHeadlightBright => 6
  | LightsTurnCenter => 7
  | LightsTurnLeft => 8
  | LightsTurnRight => 9
  | LightsTurnHazard => 10
  end.

Definition LightCommand_eq_dec (a b : LightCommand) : {a = b} + {a <> b}.
Proof. decide equality. Defined.

(** The enumerator of [LightCommand] that a name written in the code denotes. *)
Definition LightCommand_named (name : string) : option Z :=
  enumerator name (enum_values 0 LightCommand_decl).

(** A struct declaration as written: member type and member name. *)
Definition StructDecl := list (string * string).

(** [struct LightCommands], light.h lines 75-79. *)
Definition LightCommands_decl : StructDecl :=
  [ ("LightCommand", "brakeCommand");
    ("LightCommand", "turnCommand");
    ("LightCommand", "headlightCommand") ].

Definition has_member (d : StructDecl) (name : string) : bool :=
  existsb (fun m => String.eqb (snd m) name) d.

Record LightCommands := mkLightCommands {
  brakeCommand : LightCommand;
  turnCommand : LightCommand;
  headlightCommand : LightCommand }.

(** [enum LightEffect : uint8_t], light.h lines 43-59. *)
Inductive LightEffect : Type :=
| Off | Static | Blink | ColorWipe | Breathe | Fade | Scan | Rainbow
| RainbowCycle | ColorChase | TheaterChase | TheaterChaseRainbow
| Twinkle | Sparkle | Alternate.

Section Parameters.
(** [Color] is declared in a header that is not part of these sources. *)
Variable Color : Type.

(** [struct LightingParameters], light.h lines 81-89; [layer] is a [uint8_t]
    and [duration] a [uint32_t], both held as [Z]. *)
Record LightingParameters := mkLightingParameters {
  region : string;
  effect : LightEffect;
  layer : Z;
  first : Color;
  second : Color;
  third : Color;
  duration : Z }.

(** light.h lines 97-102.  The [uint8_t] operands are promoted to [int] before
    they are compared, so the comparisons are those of [Z]. *)
Definition operator_lt (lhs rhs : LightingParameters) : bool := (layer lhs <? layer rhs)%Z.
Definition operator_gt (lhs rhs : LightingParameters) : bool := (layer lhs >? layer rhs)%Z.
Definition operator_le (lhs rhs : LightingParameters) : bool := (layer lhs <=? layer rhs)%Z.
Definition operator_ge (lhs rhs : LightingParameters) : bool := (layer lhs >=? layer rhs)%Z.
Definition operator_eq (lhs rhs : LightingParameters) : bool := (layer lhs =? layer rhs)%Z.
Definition operator_ne (lhs rhs : LightingParameters) : bool := negb (layer lhs =? layer rhs)%Z.

(** Sorting by [operator<], as [std::sort] or a priority queue over
    [LightingParameters] would: insertion before the first element that the
    new one is less than. *)
Fixpoint insert_by_lt (x : LightingParameters) (l : list LightingParameters)
  : list LightingParameters :=
  match l with
  | [] => [x]
  | y :: l' => if operator_lt x y then x :: y :: l' else y :: insert_by_lt x l'
  end.

Definition sort_by_lt (l : list LightingParameters) : list LightingParameters :=
  fold_right insert_by_lt [] l.

(** A list is in order for [operator<] when no element is less than the one
    before it. *)
Definition in_order (l : list LightingParameters) : Prop :=
  Sorted (fun a b => operator_lt b a = false) l.

End Parameters.

Arguments region {Color} _.
Arguments effect {Color} _.
Arguments layer {Color} _.
Arguments first {Color} _.
Arguments second {Color} _.
Arguments third {Color} _.
Arguments duration {Color} _.
Arguments mkLightingParameters {Color} _ _ _ _ _ _ _.
Arguments operator_lt {Color} _ _.
Arguments operator_gt {Color} _ _.
Arguments operator_le {Color} _ _.
Arguments operator_ge {Color} _ _.
Arguments operator_eq {Color} _ _.
Arguments operator_ne {Color} _ _.
Arguments insert_by_lt {Color} _ _.
Arguments sort_by_lt {Color} _.
Arguments in_order {Color} _.

End light_h.

(* ------------------------------------------------------------------ *)
(** ** app.cpp *)
Module app_cpp.
Import FreeRTOS light_h.

(** Modelled from the spec: the declaration of [AccelerationState] is in a
    header that is not among the sources.  [Braking] and [Neutral] are the
    enumerators that app.cpp and the specification name; the last constructor
    stands for every other value, which the [default:] label of
    [onAccelerationStateChanged] covers. *)
Inductive AccelerationState : Type :=
| Braking
| Neutral
| AccelerationState_other (v : N).

(** Modelled from the spec: the declaration of [TurnState] is in a header that
    is not among the sources; the enumerators are those app.cpp and the
    specification name, the last constructor is every other value. *)
Inductive TurnState : Type :=
| Center
| Left
| Right
| Hazard
| TurnState_other (v : N).

(** Modelled from the spec: the declaration of [Orientation] is in a header
    that is not among the sources; app.cpp names [TopSideUp] only, the other
    constructor is every other orientation. *)
Inductive Orientation : Type :=
| TopSideUp
| Orientation_other (v : N).

(** Modelled from the spec: the declaration of [LightMode] is in a header that
    is not among the sources; the enumerators are those [setLightMode] names,
    the last constructor is every other value. *)
Inductive LightMode : Type :=
| RunningMode
| TheaterChaseRainbowMode
| TheaterChaseMode
| RainbowMode
| LightningMode
| LightMode_other (v : N).

Definition AccelerationState_eq_dec (a b : AccelerationState) : {a = b} + {a <> b}.
Proof. decide equality; apply N.eq_dec. Defined.

Definition TurnState_eq_dec (a b : TurnState) : {a = b} + {a <> b}.
Proof. decide equality; apply N.eq_dec. Defined.

Definition Orientation_eq_dec (a b : Orientation) : {a = b} + {a <> b}.
Proof. decide equality; apply N.eq_dec. Defined.

Definition LightMode_eq_dec (a b : LightMode) : {a = b} + {a <> b}.
Proof. decide equality; apply N.eq_dec. Defined.

(** Modelled from the spec: [struct VehicleState] is declared in a header that
    is not among the sources; these are the three members [process] reads. *)
Record VehicleState := mkVehicleState {
  acceleration : AccelerationState;
  turn : TurnState;
  orientation : Orientation }.

(** The renderer object behind the [renderer] pointer, as far as app.cpp looks
    into it: its address and its three command queues, each of which may be
    [NULL].  The renderer classes are not among the sources. *)
Record Renderer := mkRenderer {
  address : nat;
  brakelightQueue : option QueueHandle;
  turnlightQueue : option QueueHandle;
  headlightQueue : option QueueHandle }.

(** An element of [renderListeners]. *)
Record RenderListener := mkRenderListener {
  lightsChangedQueue : option QueueHandle }.

(** The [LightCommands] value that [notifyLightsChanged] fills in, lines
    257-261: the four members it assigns.  ([light_h.LightCommands_decl] is the
    declaration that light.h gives for this struct.) *)
Record LightCommands := mkLightCommands {
  mode : LightMode;
  brakeCommand : LightCommand;
  turnCommand : LightCommand;
  headlightCommand : LightCommand }.

(** What the code does to the world outside the [App] object, in the order in
    which it does it. *)
Inductive Event : Type :=
| TaskDelete (h : TaskHandle)                          (* vTaskDelete(h) *)
| RendererShutdown (r : Renderer)                      (* r->shutdown() *)
| RendererNew (r : Renderer)                           (* new ...Renderer(...) *)
| LightsRender                                         (* amp->lights->render() *)
| TaskCreate (h : TaskHandle)                          (* xTaskCreatePinnedToCore(startRenderHost, ...) *)
| CommandSend (q : QueueHandle) (c : LightCommand)     (* xQueueSend(renderer->...Queue, &command, 0) *)
| ListenerSend (q : QueueHandle) (c : LightCommands)   (* xQueueSend(listener->lightsChangedQueue, &commands, 0) *)
| VehicleServiceStateChanged (st : VehicleState)       (* vehicleService->onVehicleStateChanged(state) *)
| VehicleServiceProcess                                (* vehicleService->process(), line 107 *)
| BatteryServiceProcess                                (* batteryService->process(), line 108 *)
| UpdateServiceProcess.                                (* updateService->process(), line 109 *)

(** The members of [App] that app.cpp uses (the class is declared in app.h,
    which is not among the sources), the configured renderer
    [Config::ampConfig.prefs.renderer], and the part of the world the code
    acts on: the render host tasks that are alive and the events so far.
    The three service pointers are [true] when they are not NULL; only
    [onPowerUp] assigns them. *)
Record App := mkApp {
  configUpdatedQueue : Queue bool;
  lightModeQueue : Queue LightMode;
  vehicleQueue : Queue VehicleState;
  ampConfig_prefs_renderer : LightMode;
  lightMode : LightMode;
  vehicleState : VehicleState;
  renderer : option Renderer;
  renderHostHandle : option TaskHandle;
  renderListeners : list RenderListener;
  vehicleService : bool;
  batteryService : bool;
  updateService : bool;
  tasks : list TaskHandle;
  nextTask : TaskHandle;
  trace : list Event }.

Definition set_configUpdatedQueue (v : Queue bool) (s : App) : App :=
  mkApp v (lightModeQueue s) (vehicleQueue s) (ampConfig_prefs_renderer s) (lightMode s)
        (vehicleState s) (renderer s) (renderHostHandle s) (renderListeners s)
        (vehicleService s) (batteryService s) (updateService s)
        (tasks s) (nextTask s) (trace s).

Definition set_lightModeQueue (v : Queue LightMode) (s : App) : App :=
  mkApp (configUpdatedQueue s) v (vehicleQueue s) (ampConfig_prefs_renderer s) (lightMode s)
        (vehicleState s) (renderer s) (renderHostHandle s) (renderListeners s)
        (vehicleService s) (batteryService s) (updateService s)
        (tasks s) (nextTask s) (trace s).

Definition set_vehicleQueue (v : Queue VehicleState) (s : App) : App :=
  mkApp (configUpdatedQueue s) (lightModeQueue s) v (ampConfig_prefs_renderer s) (lightMode s)
        (vehicleState s) (renderer s) (renderHostHandle s) (renderListeners s)
        (vehicleService s) (batteryService s) (updateService s)
        (tasks s) (nextTask s) (trace s).

Definition set_lightMode (v : LightMode) (s : App) : App :=
  mkApp (configUpdatedQueue s) (lightModeQueue s) (vehicleQueue s) (ampConfig_prefs_renderer s) v
        (vehicleState s) (renderer s) (renderHostHandle s) (renderListeners s)
        (vehicleService s) (batteryService s) (updateService s)
        (tasks s) (nextTask s) (trace s).

Definition set_vehicleState (v : VehicleState) (s : App) : App :=
  mkApp (configUpdatedQueue s) (lightModeQueue s) (vehicleQueue s) (ampConfig_prefs_renderer s) (lightMode s)
        v (renderer s) (renderHostHandle s) (renderListeners s)
        (vehicleService s) (batteryService s) (updateService s)
        (tasks s) (nextTask s) (trace s).

Definition set_renderer (v : option Renderer) (s : App) : App :=
  mkApp (configUpdatedQueue s) (lightModeQueue s) (vehicleQueue s) (ampConfig_prefs_renderer s) (lightMode s)
        (vehicleState s) v (renderHostHandle s) (renderListeners s)
        (vehicleService s) (batteryService s) (updateService s)
        (tasks s) (nextTask s) (trace s).

Definition set_renderHostHandle (v : option TaskHandle) (s : App) : App :=
  mkApp (configUpdatedQueue s) (lightModeQueue s) (vehicleQueue s) (ampConfig_prefs_renderer s) (lightMode s)
        (vehicleState s) (renderer s) v (renderListeners s)
        (vehicleService s) (batteryService s) (updateService s)
        (tasks s) (nextTask s) (trace s).

Definition set_tasks (v : list TaskHandle) (s : App) : App :=
  mkApp (configUpdatedQueue s) (lightModeQueue s) (vehicleQueue s) (ampConfig_prefs_renderer s) (lightMode s)
        (vehicleState s) (renderer s) (renderHostHandle s) (renderListeners s)
        (vehicleService s) (batteryService s) (updateService s)
        v (nextTask s) (trace s).

Definition set_nextTask (v : TaskHandle) (s : App) : App :=
  mkApp (configUpdatedQueue s) (lightModeQueue s) (vehicleQueue s) (ampConfig_prefs_renderer s) (lightMode s)
        (vehicleState s) (renderer s) (renderHostHandle s) (renderListeners s)
        (vehicleService s) (batteryService s) (updateService s)
        (tasks s) v (trace s).

Definition set_trace (v : list Event) (s : App) : App :=
  mkApp (configUpdatedQueue s) (lightModeQueue s) (vehicleQueue s) (ampConfig_prefs_renderer s) (lightMode s)
        (vehicleState s) (renderer s) (renderHostHandle s) (renderListeners s)
        (vehicleService s) (batteryService s) (updateService s)
        (tasks s) (nextTask s) v.

(** How a call ends.  Nothing in app.cpp catches an exception or tests a
    pointer before [renderer->shutdown()], so a call either returns or is
    left at the point of the failure, with the members as they are then. *)
Inductive Abort : Type :=
| BadAlloc          (* a new-expression threw *)
| NullDereference.  (* a member call through a NULL pointer *)

Inductive Outcome : Type :=
| Returned (s : App)
| Aborted (why : Abort) (s : App).

Definition bind (o : Outcome) (k : App -> Outcome) : Outcome :=
  match o with
  | Returned s => k s
  | Aborted why s => Aborted why s
  end.

Notation "x <- c ;; k" := (bind c (fun x => k))
  (at level 61, c at next level, right associativity).

(** What the two source files leave open. *)
Class Platform := mkPlatform {
  (** whether the build defines [BLE_ENABLED] *)
  BLE_ENABLED : bool;
  (** the two [LightCommand] enumerators that app.cpp names (lines 123, 127)
      and that the declaration in light.h does not have *)
  LightsBrake : LightCommand;
  LightsRunning : LightCommand;
  (** the new-expressions of [setLightMode]: the object built, or [None] when
      the allocation or the constructor throws *)
  new_PatternRenderer : string -> option Renderer;
  new_RunningRenderer : option Renderer }.

Section Members.
Context {platform : Platform}.

(** The constructor, lines 6-13, applied to the members as their in-class
    initialisers leave them. *)
Definition App_new (s : App) : App :=
  set_vehicleQueue (xQueueCreate 5)
    (set_lightModeQueue (xQueueCreate 1)
      (set_configUpdatedQueue (xQueueCreate 1) s)).

Definition emit (e : Event) (s : App) : App :=
  set_trace (trace s ++ [e]) s.

(** [vTaskDelete(h)]: the task stops existing. *)
Definition vTaskDelete (h : TaskHandle) (s : App) : App :=
  set_tasks (List.remove Nat.eq_dec h (tasks s)) (emit (TaskDelete h) s).

(** [xTaskCreatePinnedToCore(startRenderHost, "renderer", 8 * 1024, this, 5,
    pvCreatedTask, 1)]: a new task runs [startRenderHost].  The sixth argument
    is passed by value: the callee could store the new handle where a non-NULL
    argument points to, it cannot assign the caller's [renderHostHandle]. *)
Definition xTaskCreatePinnedToCore (pvCreatedTask : option TaskHandle) (s : App) : App :=
  let h := nextTask s in
  set_nextTask (S h) (set_tasks (tasks s ++ [h]) (emit (TaskCreate h) s)).

(** Lines 256-267. *)
Definition notifyLightsChanged (brake turnc headlight : LightCommand) (s : App) : App :=
  let commands :=
    {| mode := lightMode s;
       brakeCommand := brake;
       turnCommand := turnc;
       headlightCommand := headlight |} in
  fold_left
    (fun s listener =>
       match lightsChangedQueue listener with
       | Some q => emit (ListenerSend q commands) s
       | None => s
       end)
    (renderListeners s) s.

(** Modelled from the spec: the default arguments of [notifyLightsChanged] are
    declared in app.h, which is not among the sources; the call without
    arguments of line 211 sends the bundle that has [NoCommand] in all three
    command members. *)
Definition notifyLightsChanged_default (s : App) : App :=
  notifyLightsChanged NoCommand NoCommand NoCommand s.

(** Lines 232-238. *)
Definition setHeadlight (command : LightCommand) (s : App) : App :=
  let s1 :=
    match renderer s with
    | Some r =>
        match headlightQueue r with
        | Some q => emit (CommandSend q command) s
        | None => s
        end
    | None => s
    end in
  notifyLightsChanged NoCommand NoCommand command s1.

(** Lines 240-246. *)
Definition setBrakes (command : LightCommand) (s : App) : App :=
  let s1 :=
    match renderer s with
    | Some r =>
        match brakelightQueue r with
        | Some q => emit (CommandSend q command) s
        | None => s
        end
    | None => s
    end in
  notifyLightsChanged command NoCommand NoCommand s1.

(** Lines 248-254. *)
Definition setTurnLights (command : LightCommand) (s : App) : App :=
  let s1 :=
    match renderer s with
    | Some r =>
        match turnlightQueue r with
        | Some q => emit (CommandSend q command) s
        | None => s
        end
    | None => s
    end in
  notifyLightsChanged NoCommand command NoCommand s1.

(** Lines 116-133. *)
Definition onAccelerationStateChanged (state : AccelerationState) (s : App) : App :=
  match renderer s with
  | Some _ =>
      let command :=
        match state with
        | Braking => LightsBrake
        | _ => LightsRunning
        end in
      setBrakes command s
  | None => s
  end.

(** Lines 135-157. *)
Definition onTurnStateChanged (state : TurnState) (s : App) : App :=
  match renderer s with
  | Some _ =>
      let command :=
        match state with
        | Left => LightsTurnLeft
        | Right => LightsTurnRight
        | Hazard => LightsTurnHazard
        | _ => LightsTurnCenter
        end in
      setTurnLights command s
  | None => s
  end.

(** Lines 159-176. *)
Definition onOrientationChanged (state : Orientation) (s : App) : App :=
  match renderer s with
  | Some _ =>
      let command :=
        match state with
        | TopSideUp => LightsOff
        | _ => LightsReset
        end in
      setHeadlight command (setBrakes command (setTurnLights command s))
  | None => s
  end.

(** [renderer = new ...;]: the pointer is assigned after the object is built. *)
Definition assign_new_renderer (built : option Renderer) (s : App) : Outcome :=
  match built with
  | Some r => Returned (set_renderer (Some r) (emit (RendererNew r) s))
  | None => Aborted BadAlloc s
  end.

(** Lines 178-213. *)
Definition setLightMode (mode : LightMode) (s : App) : Outcome :=
  if LightMode_eq_dec (lightMode s) mode then Returned s
  else
    s1 <- match renderHostHandle s with
          | Some h =>
              let s' := vTaskDelete h s in
              match renderer s' with
              | Some r =>
                  Returned
                    (set_renderHostHandle None
                      (set_renderer None (emit (RendererShutdown r) s')))
              | None => Aborted NullDereference s'
              end
          | None => Returned s
          end ;;
    s2 <- match mode with
          | TheaterChaseRainbowMode =>
              assign_new_renderer (new_PatternRenderer "theater-chase-rainbow") s1
          | TheaterChaseMode =>
              assign_new_renderer (new_PatternRenderer "theater-chase") s1
          | RainbowMode =>
              assign_new_renderer (new_PatternRenderer "rainbow") s1
          | LightningMode =>
              assign_new_renderer (new_PatternRenderer "lightning") s1
          | _ =>
              s' <- assign_new_renderer new_RunningRenderer s1 ;;
              Returned (emit LightsRender s')
          end ;;
    let s3 := xTaskCreatePinnedToCore (renderHostHandle s2) s2 in
    let s4 := set_lightMode mode s3 in
    Returned (notifyLightsChanged_default s4).

(** Lines 48-58. *)
Definition onPowerDown (s : App) : App :=
  let s1 :=
    match renderHostHandle s with
    | Some h => set_renderHostHandle None (vTaskDelete h s)
    | None => s
    end in
  match renderer s1 with
  | Some r => emit (RendererShutdown r) s1
  | None => s1
  end.

(** Lines 60-66. *)
Definition onConfigUpdated (s : App) : Outcome :=
  setLightMode (ampConfig_prefs_renderer s) s.

(** Lines 106-110: in a build with [BLE_ENABLED] the three services are
    polled, each through its pointer and without a test for NULL. *)
Definition pollServices (s : App) : Outcome :=
  if BLE_ENABLED then
    if vehicleService s then
      let s1 := emit VehicleServiceProcess s in
      if batteryService s1 then
        let s2 := emit BatteryServiceProcess s1 in
        if updateService s2 then Returned (emit UpdateServiceProcess s2)
        else Aborted NullDereference s2
      else Aborted NullDereference s1
    else Aborted NullDereference s
  else Returned s.

(** The loop of lines 84-86.  [state] is the uninitialised local of line 82,
    [None] until a receive has filled it.  Every turn that finds a message
    takes one out of the queue. *)
Fixpoint drainVehicleQueue (fuel : nat) (q : Queue VehicleState)
    (state : option VehicleState) (newVehicleState : bool)
  : Queue VehicleState * option VehicleState * bool :=
  match fuel with
  | O => (q, state, newVehicleState)
  | S fuel' =>
      if 0 <? uxQueueMessagesWaiting q then
        let '(received, state', q') := xQueueReceive q state in
        drainVehicleQueue fuel' q' state' received
      else (q, state, newVehicleState)
  end.

(** Lines 68-114. *)
Definition process (s : App) : Outcome :=
  s1 <- (if 0 <? uxQueueMessagesWaiting (configUpdatedQueue s) then
           let '(received, valid, q) := xQueueReceive (configUpdatedQueue s) None in
           let s' := set_configUpdatedQueue q s in
           match received, valid with
           | true, Some true => onConfigUpdated s'
           | _, _ => Returned s'
           end
         else Returned s) ;;
  s2 <- (if 0 <? uxQueueMessagesWaiting (lightModeQueue s1) then
           let '(received, mode, q) := xQueueReceive (lightModeQueue s1) None in
           let s' := set_lightModeQueue q s1 in
           match received, mode with
           | true, Some mode => setLightMode mode s'
           | _, _ => Returned s'
           end
         else Returned s1) ;;
  let '(q, state, newVehicleState) :=
    drainVehicleQueue (uxQueueMessagesWaiting (vehicleQueue s2)) (vehicleQueue s2) None false in
  let s3 := set_vehicleQueue q s2 in
  let s4 :=
    match newVehicleState, state with
    | true, Some state =>
        let a :=
          if AccelerationState_eq_dec (acceleration (vehicleState s3)) (acceleration state)
          then s3 else onAccelerationStateChanged (acceleration state) s3 in
        let b :=
          if TurnState_eq_dec (turn (vehicleState a)) (turn state)
          then a else onTurnStateChanged (turn state) a in
        let c :=
          if Orientation_eq_dec (orientation (vehicleState b)) (orientation state)
          then b else onOrientationChanged (orientation state) b in
        let d :=
          if BLE_ENABLED && vehicleService c
          then emit (VehicleServiceStateChanged state) c else c in
        set_vehicleState state d
    | _, _ => s3
    end in
  pollServices s4.

End Members.

End app_cpp.

(* ------------------------------------------------------------------ *)
(** ** What an observer of the events sees *)
Module Observations.
Import FreeRTOS light_h app_cpp.

(** Appending several events at once. *)
Definition emit_all (es : list Event) (s : App) : App :=
  set_trace (trace s ++ es) s.

(** One attempt to send [c] into a renderer command queue, if there is one. *)
Definition command_to (q : option QueueHandle) (c : LightCommand) : list Event :=
  match q with
  | Some h => [CommandSend h c]
  | None => []
  end.

(** One fan-out: the bundle goes once to every listener that has a queue, in
    the order of registration. *)
Definition fanout (listeners : list RenderListener) (c : LightCommands) : list Event :=
  flat_map
    (fun l => match lightsChangedQueue l with
              | Some q => [ListenerSend q c]
              | None => []
              end)
    listeners.

(** The events of a command on the brake, turn and headlight channel of
    renderer [r]: the send into the renderer's queue, then the fan-out of a
    bundle that carries the command in that member and [NoCommand] elsewhere. *)
Definition brake_channel (r : Renderer) (s : App) (c : LightCommand) : list Event :=
  command_to (brakelightQueue r) c
  ++ fanout (renderListeners s) (mkLightCommands (lightMode s) c NoCommand NoCommand).

Definition turn_channel (r : Renderer) (s : App) (c : LightCommand) : list Event :=
  command_to (turnlightQueue r) c
  ++ fanout (renderListeners s) (mkLightCommands (lightMode s) NoCommand c NoCommand).

Definition headlight_channel (r : Renderer) (s : App) (c : LightCommand) : list Event :=
  command_to (headlightQueue r) c
  ++ fanout (renderListeners s) (mkLightCommands (lightMode s) NoCommand NoCommand c).

(** The commands put into renderer queues, the bundles put into listener
    queues, the renderers built and shut down, the tasks deleted and created. *)
Definition commands_sent (es : list Event) : list (QueueHandle * LightCommand) :=
  flat_map (fun e => match e with CommandSend q c => [(q, c)] | _ => [] end) es.

Definition notifications (es : list Event) : list (QueueHandle * LightCommands) :=
  flat_map (fun e => match e with ListenerSend q c => [(q, c)] | _ => [] end) es.

Definition renderers_built (es : list Event) : list Renderer :=
  flat_map (fun e => match e with RendererNew r => [r] | _ => [] end) es.

Definition renderers_shut_down (es : list Event) : list Renderer :=
  flat_map (fun e => match e with RendererShutdown r => [r] | _ => [] end) es.

Definition tasks_deleted (es : list Event) : list TaskHandle :=
  flat_map (fun e => match e with TaskDelete h => [h] | _ => [] end) es.

Definition tasks_created (es : list Event) : list TaskHandle :=
  flat_map (fun e => match e with TaskCreate h => [h] | _ => [] end) es.

(** The bundles one fan-out delivers. *)
Definition deliveries (listeners : list RenderListener) (c : LightCommands)
  : list (QueueHandle * LightCommands) :=
  notifications (fanout listeners c).

(** A producer's [xQueueSend(vehicleQueue, &state, 0)]. *)
Definition vehicleQueue_send (st : VehicleState) (s : App) : App :=
  set_vehicleQueue (snd (xQueueSend (vehicleQueue s) st)) s.

(** No configuration update and no mode request is waiting. *)
Definition no_signal_pending (s : App) : Prop :=
  items (configUpdatedQueue s) = [] /\ items (lightModeQueue s) = [].

Section Tables.
Context {platform : Platform}.

(** The mapping tables in the words of the specification (4.1). *)
Definition acceleration_command (a : AccelerationState) : LightCommand :=
  match a with
  | Braking => LightsBrake
  | Neutral => LightsRunning
  | AccelerationState_other _ => LightsRunning
  end.

Definition turn_command (t : TurnState) : LightCommand :=
  match t with
  | Left => LightsTurnLeft
  | Right => LightsTurnRight
  | Hazard => LightsTurnHazard
  | Center => LightsTurnCenter
  | TurnState_other _ => LightsTurnCenter
  end.

Definition orientation_command (o : Orientation) : LightCommand :=
  match o with
  | TopSideUp => LightsOff
  | Orientation_other _ => LightsReset
  end.

(** The events that a change to the vehicle state [st] is specified to cause
    when the snapshot is [vehicleState s]: for each member that differs, and
    only for those, the command of the table on its channel; an orientation
    command goes to the turn, brake and headlight channel. *)
Definition state_change_events (st : VehicleState) (s : App) : list Event :=
  match renderer s with
  | None => []
  | Some r =>
      (if AccelerationState_eq_dec (acceleration (vehicleState s)) (acceleration st)
       then [] else brake_channel r s (acceleration_command (acceleration st)))
      ++ (if TurnState_eq_dec (turn (vehicleState s)) (turn st)
          then [] else turn_channel r s (turn_command (turn st)))
      ++ (if Orientation_eq_dec (orientation (vehicleState s)) (orientation st)
          then []
          else turn_channel r s (orientation_command (orientation st))
               ++ brake_channel r s (orientation_command (orientation st))
               ++ headlight_channel r s (orientation_command (orientation st)))
  end.

(** The service polls that the end of a cycle gets through: all three when
    the pointers are set, those before the first NULL pointer otherwise. *)
Definition polls_done (s : App) : list Event :=
  if BLE_ENABLED then
    if vehicleService s then
      VehicleServiceProcess
      :: (if batteryService s then
            BatteryServiceProcess
            :: (if updateService s then [UpdateServiceProcess] else [])
          else [])
    else []
  else [].

(** The cycle gets past its service polls: the build has no wireless
    services, or all three service pointers are set. *)
Definition services_ok (s : App) : bool :=
  negb BLE_ENABLED || (vehicleService s && batteryService s && updateService s).

(** How a cycle of the object [s] ends when it has come to the state [st]:
    it returns, or it goes through a NULL service pointer. *)
Definition ended (s : App) (st : App) : Outcome :=
  if services_ok s then Returned st else Aborted NullDereference st.

(** What the wireless build adds to a cycle that took [st] from the queue:
    the state goes to the vehicle service, if there is one, and the services
    are polled. *)
Definition service_events (received : option VehicleState) (s : App) : list Event :=
  (match received with
   | Some st => if BLE_ENABLED && vehicleService s then [VehicleServiceStateChanged st] else []
   | None => []
   end)
  ++ polls_done s.

(** The two halves of [process]: lines 71-80, which serve the configuration
    and the mode queue, and lines 82-110, which serve the vehicle queue and
    poll the services. *)
Definition process_signals (s : App) : Outcome :=
  s1 <- (if 0 <? uxQueueMessagesWaiting (configUpdatedQueue s) then
           let '(received, valid, q) := xQueueReceive (configUpdatedQueue s) None in
           let s' := set_configUpdatedQueue q s in
           match received, valid with
           | true, Some true => onConfigUpdated s'
           | _, _ => Returned s'
           end
         else Returned s) ;;
  if 0 <? uxQueueMessagesWaiting (lightModeQueue s1) then
    let '(received, mode, q) := xQueueReceive (lightModeQueue s1) None in
    let s' := set_lightModeQueue q s1 in
    match received, mode with
    | true, Some mode => setLightMode mode s'
    | _, _ => Returned s'
    end
  else Returned s1.

Definition process_vehicle (s2 : App) : Outcome :=
  let '(q, state, newVehicleState) :=
    drainVehicleQueue (uxQueueMessagesWaiting (vehicleQueue s2)) (vehicleQueue s2) None false in
  let s3 := set_vehicleQueue q s2 in
  let s4 :=
    match newVehicleState, state with
    | true, Some state =>
        let a :=
          if AccelerationState_eq_dec (acceleration (vehicleState s3)) (acceleration state)
          then s3 else onAccelerationStateChanged (acceleration state) s3 in
        let b :=
          if TurnState_eq_dec (turn (vehicleState a)) (turn state)
          then a else onTurnStateChanged (turn state) a in
        let c :=
          if Orientation_eq_dec (orientation (vehicleState b)) (orientation state)
          then b else onOrientationChanged (orientation state) b in
        let d :=
          if BLE_ENABLED && vehicleService c
          then emit (VehicleServiceStateChanged state) c else c in
        set_vehicleState state d
    | _, _ => s3
    end in
  pollServices s4.

(** The state in which a cycle leaves the object after it took [st] as the
    newest vehicle state and caused the events [es]. *)
Definition cycle_result (cap : nat) (st : VehicleState) (es : list Event) (s : App) : App :=
  set_vehicleState st (set_vehicleQueue (mkQueue cap []) (emit_all es s)).


(** The new-expression that [setLightMode] evaluates for a mode, and the
    events of a successful construction (the running renderer is followed by
    [amp->lights->render()]). *)
Definition built_for (mode : LightMode) : option Renderer :=
  match mode with
  | TheaterChaseRainbowMode => new_PatternRenderer "theater-chase-rainbow"
  | TheaterChaseMode => new_PatternRenderer "theater-chase"
  | RainbowMode => new_PatternRenderer "rainbow"
  | LightningMode => new_PatternRenderer "lightning"
  | RunningMode => new_RunningRenderer
  | LightMode_other _ => new_RunningRenderer
  end.

Definition construction_events (mode : LightMode) (r : Renderer) : list Event :=
  match mode with
  | TheaterChaseRainbowMode | TheaterChaseMode | RainbowMode | LightningMode =>
      [RendererNew r]
  | RunningMode | LightMode_other _ => [RendererNew r; LightsRender]
  end.

(** The teardown step: with a task handle and a renderer at hand, the task is
    deleted, the renderer shut down and both members are nulled; without a
    task handle nothing happens. *)
Definition torn_down (s : App) : App :=
  match renderHostHandle s, renderer s with
  | Some h, Some r =>
      set_renderHostHandle None
        (set_renderer None
          (set_tasks (List.remove Nat.eq_dec h (tasks s))
            (emit_all [TaskDelete h; RendererShutdown r] s)))
  | _, _ => s
  end.

Definition teardown_events (s : App) : list Event :=
  match renderHostHandle s, renderer s with
  | Some h, Some r => [TaskDelete h; RendererShutdown r]
  | _, _ => []
  end.

(** The rest of a successful mode change, from the state [s1] that the
    teardown step left: construction, the new task, the new mode, one fan-out
    of the bundle without commands. *)
Definition installed (mode : LightMode) (r : Renderer) (s1 : App) : App :=
  set_lightMode mode
    (set_nextTask (S (nextTask s1))
      (set_tasks (tasks s1 ++ [nextTask s1])
        (set_renderer (Some r)
          (emit_all
             (construction_events mode r
              ++ [TaskCreate (nextTask s1)]
              ++ fanout (renderListeners s1)
                   (mkLightCommands mode NoCommand NoCommand NoCommand))
             s1)))).

(** The claim about a failed construction, as stated: when [setLightMode] is
    left because the new-expression failed, the renderer handle is null and
    the state-change handlers do nothing. *)
Definition failure_leaves_no_renderer (mode : LightMode) (s : App) : Prop :=
  forall s', setLightMode mode s = Aborted BadAlloc s' ->
    renderer s' = None
    /\ (forall a, onAccelerationStateChanged a s' = s')
    /\ (forall t, onTurnStateChanged t s' = s')
    /\ (forall o, onOrientationChanged o s' = s').

End Tables.

End Observations.

(* ------------------------------------------------------------------ *)
(** ** Concrete platforms and states *)
Module Scenario.
Import FreeRTOS light_h app_cpp Observations.

Definition running_renderer : Renderer := mkRenderer 1 (Some 10) (Some 11) (Some 12).
(** A pattern renderer; the address tells the patterns apart. *)
Definition pattern_renderer (pattern : string) : Renderer :=
  mkRenderer (100 + String.length pattern) (Some 20) (Some 21) None.

(** A wireless build in which every construction succeeds; the two names
    that light.h lacks are read as its two brake enumerators. *)
Definition healthy : Platform :=
  mkPlatform true LightsBrakeActive LightsBrakeNormal
    (fun pattern => Some (pattern_renderer pattern)) (Some running_renderer).

(** The same build when the construction of the rainbow renderer fails. *)
Definition starved : Platform :=
  mkPlatform true LightsBrakeActive LightsBrakeNormal
    (fun pattern =>
       if String.eqb pattern "rainbow" then None else Some (pattern_renderer pattern))
    (Some running_renderer).

(** Three listeners, the second without a queue. *)
Definition listeners : list RenderListener :=
  [mkRenderListener (Some 30); mkRenderListener None; mkRenderListener (Some 31)].

(** The object after its constructor and [onPowerUp]: the services are there,
    but no renderer, no task, and nothing waiting. *)
Definition boot : App :=
  App_new
    (mkApp (mkQueue 0 []) (mkQueue 0 []) (mkQueue 0 [])
       RunningMode RunningMode (mkVehicleState Braking Left (Orientation_other 0))
       None None listeners true true true [] 0 []).

Definition returned (o : Outcome) : App :=
  match o with
  | Returned s => s
  | Aborted _ s => s
  end.

(** After a first mode change, to the theater chase. *)
Definition chasing : App :=
  returned (setLightMode (platform := starved) TheaterChaseMode boot).

(** After a first mode change, to the rainbow, where all constructions succeed. *)
Definition rainbow : App :=
  returned (setLightMode (platform := healthy) RainbowMode boot).

(** Three vehicle states that arrive within one cycle. *)
Definition stateA : VehicleState := mkVehicleState Neutral Center TopSideUp.
Definition stateB : VehicleState := mkVehicleState Braking Right TopSideUp.
Definition stateC : VehicleState := mkVehicleState Braking Hazard (Orientation_other 3).


(** The same three states arriving before any renderer exists. *)
Definition dark_three_waiting : App :=
  vehicleQueue_send stateC (vehicleQueue_send stateB (vehicleQueue_send stateA boot)).


End Scenario.

(* ------------------------------------------------------------------ *)
(** ** The render host task, lines 215-230 *)
Module render_host.
Import FreeRTOS light_h app_cpp.

(** What the task does to the world outside the [App] object. *)
Inductive HostEvent : Type :=
| MotionReset                       (* amp->motion.resetMotionDetection() *)
| RendererProcess (r : Renderer)    (* app->renderer->process() *)
| Delay (ms : nat).                 (* delay(ms) *)

(** One turn of the loop of lines 221-226, on the object as the task finds it. *)
Definition renderHost_turn (app : App) : list HostEvent :=
  match renderer app with
  | Some r => [RendererProcess r]
  | None => []
  end
  ++ [Delay 50].

(** [startRenderHost] up to the turns taken so far.  The loop has no exit
    (lines 228-229 are never reached); the other task changes the object
    between the turns, so each turn has its own view [seen] of it. *)
Definition startRenderHost (seen : list App) : list HostEvent :=
  MotionReset :: flat_map renderHost_turn seen.

(** The renderers on which the task has called [process()], in order. *)
Definition renderers_processed (es : list HostEvent) : list Renderer :=
  flat_map (fun e => match e with RendererProcess r => [r] | _ => [] end) es.

(** The renderers installed in the views [seen], in order; a view without a
    renderer gives none. *)
Definition renderers_installed (seen : list App) : list Renderer :=
  flat_map (fun app => match renderer app with Some r => [r] | None => [] end) seen.

(** The time the task has spent in [delay]. *)
Definition delayed (es : list HostEvent) : nat :=
  list_sum (map (fun e => match e with Delay ms => ms | _ => 0 end) es).

End render_host.

(* ------------------------------------------------------------------ *)
(** ** Runs of several calls *)
Module Runs.
Import FreeRTOS light_h app_cpp Observations.

(** The object as a call leaves it, whether it returns or not. *)
Definition outcome_state (o : Outcome) : App :=
  match o with
  | Returned s => s
  | Aborted _ s => s
  end.

(** The command queue of the installed renderer that [sel] selects, if both exist. *)
Definition queue_of (sel : Renderer -> option QueueHandle) (s : App) : option QueueHandle :=
  match renderer s with
  | Some r => sel r
  | None => None
  end.

(** What [onPowerDown] does to the task and to the renderer. *)
Definition power_down_events (s : App) : list Event :=
  match renderHostHandle s with
  | Some h => [TaskDelete h]
  | None => []
  end
  ++ match renderer s with
     | Some r => [RendererShutdown r]
     | None => []
     end.

(** How many of the requests [ms], made one after the other, ask for another
    mode than the one current at the time. *)
Fixpoint mode_changes (current : LightMode) (ms : list LightMode) : nat :=
  match ms with
  | [] => 0
  | m :: ms' =>
      (if LightMode_eq_dec current m then 0 else 1) + mode_changes m ms'
  end.

(** A queue after its oldest message, if any, has been received. *)
Definition popped {A : Type} (q : Queue A) : Queue A :=
  mkQueue (capacity q) (tl (items q)).

(** What every member function leaves alone: the listeners, the configured
    renderer, the three service pointers and the sizes of the three queues. *)
Definition same_setup (s s' : App) : Prop :=
  renderListeners s' = renderListeners s
  /\ ampConfig_prefs_renderer s' = ampConfig_prefs_renderer s
  /\ vehicleService s' = vehicleService s
  /\ batteryService s' = batteryService s
  /\ updateService s' = updateService s
  /\ capacity (configUpdatedQueue s') = capacity (configUpdatedQueue s)
  /\ capacity (lightModeQueue s') = capacity (lightModeQueue s)
  /\ capacity (vehicleQueue s') = capacity (vehicleQueue s).

Section Calls.
Context {platform : Platform}.

(** Lines 71-74 and lines 76-80 of [process], each as a step of its own. *)
Definition config_step (s : App) : Outcome :=
  match items (configUpdatedQueue s) with
  | [] => Returned s
  | valid :: _ =>
      let s0 := set_configUpdatedQueue (popped (configUpdatedQueue s)) s in
      if valid then onConfigUpdated s0 else Returned s0
  end.

Definition mode_step (s : App) : Outcome :=
  match items (lightModeQueue s) with
  | [] => Returned s
  | mode :: _ => setLightMode mode (set_lightModeQueue (popped (lightModeQueue s)) s)
  end.

(** [setLightMode] called for each of [ms] in turn. *)
Fixpoint setLightModes (ms : list LightMode) (s : App) : Outcome :=
  match ms with
  | [] => Returned s
  | m :: ms' => s1 <- setLightMode m s ;; setLightModes ms' s1
  end.

End Calls.

End Runs.

(* ------------------------------------------------------------------ *)
(** ** More concrete states *)
Module MoreScenario.
Import FreeRTOS light_h app_cpp Observations Scenario Runs.

(** A build without the wireless services. *)
Definition wired : Platform :=
  mkPlatform false LightsBrakeActive LightsBrakeNormal
    (fun pattern => Some (pattern_renderer pattern)) (Some running_renderer).

(** [boot] with a configuration update and a mode request waiting. *)
Definition configured (valid : bool) (ms : list LightMode) : App :=
  set_lightModeQueue (mkQueue 1 ms)
    (set_configUpdatedQueue (mkQueue 1 [valid])
      (mkApp (mkQueue 1 []) (mkQueue 1 []) (mkQueue 5 [])
         TheaterChaseMode RunningMode (mkVehicleState Braking Left (Orientation_other 0))
         None None listeners true true true [] 0 [])).

(** [rainbow] with a request for the lightning and a vehicle state waiting. *)
Definition rainbow_requested : App :=
  vehicleQueue_send stateA (set_lightModeQueue (mkQueue 1 [LightningMode]) rainbow).

(** A state in which the handle of the render host task is on record. *)
Definition rainbow_with_handle : App :=
  set_renderHostHandle (Some 0) rainbow.

(** [boot] with a task handle on record but no renderer. *)
Definition boot_with_handle : App :=
  set_renderHostHandle (Some 0) boot.

(** The object after its constructor, before [onPowerUp]: the service
    pointers are still NULL. *)
Definition constructed : App :=
  App_new
    (mkApp (mkQueue 0 []) (mkQueue 0 []) (mkQueue 0 [])
       RunningMode RunningMode (mkVehicleState Braking Left (Orientation_other 0))
       None None listeners false false false [] 0 []).

(** Four mode requests in a row, the second for the mode the first set. *)
Definition four_requests : list LightMode :=
  [RainbowMode; RainbowMode; LightningMode; RunningMode].

End MoreScenario.

(* ------------------------------------------------------------------ *)
(** ** Properties of models/light.h *)
Module LightTheory.
Import light_h.

(** The inductive type and its numbering are the declaration. *)
Lemma LightCommand_all_is_decl :
  map (fun c => (LightCommand_name c, LightCommand_value c)) LightCommand_all
  = enum_values 0 LightCommand_decl.
Proof. reflexivity. Qed.

Lemma LightCommand_all_complete (c : LightCommand) : In c LightCommand_all.
Proof. destruct c; simpl; repeat ((left; reflexivity) || right). Qed.

Lemma LightCommand_named_sound (c : LightCommand) :
  LightCommand_named (LightCommand_name c) = Some (LightCommand_value c).
Proof. destruct c; reflexivity. Qed.

(** C6 (the code at the names the claim and app.cpp use): the declaration of
    [LightCommand] in light.h has eleven enumerators, [NoCommand] is zero,
    the fourth and fifth are [LightsBrakeNormal] and [LightsBrakeActive], and
    neither [LightsBrake] nor [LightsRunning], which app.cpp names, is an
    enumerator of it. *)
Theorem LightCommand_has_no_LightsBrake_LightsRunning :
  map fst (enum_values 0 LightCommand_decl)
  = [ "NoCommand"; "LightsOff"; "LightsReset"; "LightsBrakeNormal";
      "LightsBrakeActive"; "LightsHeadlightNormal"; "LightsHeadlightBright";
      "LightsTurnCenter"; "LightsTurnLeft"; "LightsTurnRight"; "LightsTurnHazard" ]
  /\ LightCommand_named "NoCommand" = Some 0%Z
  /\ LightCommand_named "LightsBrake" = None
  /\ LightCommand_named "LightsRunning" = None
  /\ (forall c, LightCommand_name c <> "LightsBrake" /\ LightCommand_name c <> "LightsRunning").
Proof.
  repeat split; try reflexivity; destruct c; discriminate.
Qed.

Section Ordering.
Context {Color : Type}.
Implicit Types a b : LightingParameters Color.

Lemma operator_lt_iff a b : operator_lt a b = true <-> (layer a < layer b)%Z.
Proof. unfold operator_lt. apply Z.ltb_lt. Qed.

Lemma operator_eq_iff a b : operator_eq a b = true <-> layer a = layer b.
Proof. unfold operator_eq. apply Z.eqb_eq. Qed.

Lemma not_operator_lt_iff a b : operator_lt b a = false <-> (layer a <= layer b)%Z.
Proof. unfold operator_lt. rewrite Z.ltb_ge. reflexivity. Qed.

(** A list in order for [operator<] has its layers in ascending order. *)
Lemma in_order_layers (l : list (LightingParameters Color)) :
  in_order l -> Sorted Z.le (map layer l).
Proof.
  unfold in_order. induction 1 as [|x l Hs IH Hd]; simpl; constructor; auto.
  destruct Hd; simpl; constructor. now apply not_operator_lt_iff.
Qed.

(** The only ascending arrangement of the layers 3, 1, 2. *)
Lemma sorted_perm_312 (ls : list Z) :
  Permutation [3; 1; 2]%Z ls -> Sorted Z.le ls -> ls = [1; 2; 3]%Z.
Proof.
  intros Hp Hs.
  pose proof (Permutation_length Hp) as Hlen.
  destruct ls as [|x [|y [|z [|w ls]]]]; try discriminate Hlen.
  assert (Hx : In x [3; 1; 2]%Z) by (apply (Permutation_in x (Permutation_sym Hp)); simpl; auto).
  assert (Hy : In y [3; 1; 2]%Z) by (apply (Permutation_in y (Permutation_sym Hp)); simpl; auto).
  assert (Hz : In z [3; 1; 2]%Z) by (apply (Permutation_in z (Permutation_sym Hp)); simpl; auto).
  assert (Hnd : NoDup [x; y; z]).
  { apply (Permutation_NoDup Hp). repeat constructor; simpl; intuition discriminate. }
  inversion Hs as [|? ? Hs1 Hd1]; subst.
  inversion Hs1 as [|? ? Hs2 Hd2]; subst.
  inversion Hd1; subst. inversion Hd2; subst.
  inversion Hnd as [|? ? Hn1 Hnd1]; subst.
  inversion Hnd1 as [|? ? Hn2 _]; subst.
  assert (x <> y) by (intros ->; apply Hn1; simpl; auto).
  assert (x <> z) by (intros ->; apply Hn1; simpl; auto).
  assert (y <> z) by (intros ->; apply Hn2; simpl; auto).
  simpl in Hx, Hy, Hz.
  assert (x = 1 /\ y = 2 /\ z = 3)%Z as (-> & -> & ->) by lia.
  reflexivity.
Qed.

(** C8: [operator<] and [operator==] of [LightingParameters] look at [layer]
    only: [a < b] iff the layer of [a] is less, [a == b] iff the layers are
    equal, whatever the other members are.  So values with the layers 3, 1, 2
    sort into the layer order 1, 2, 3 (by insertion under [operator<], and in
    every arrangement that is in order for [operator<]), and two values with
    the same layer compare equal, and neither is less than the other, even
    when all their other members differ. *)
Theorem LightingParameters_ordered_by_layer_only a b (p3 p1 p2 : LightingParameters Color) :
  (operator_lt a b = true <-> (layer a < layer b)%Z)
  /\ (operator_eq a b = true <-> layer a = layer b)
  /\ (layer a = layer b ->
      operator_eq a b = true /\ operator_lt a b = false /\ operator_lt b a = false
      /\ operator_ne a b = false)
  /\ (layer p3 = 3%Z -> layer p1 = 1%Z -> layer p2 = 2%Z ->
      map layer (sort_by_lt [p3; p1; p2]) = [1; 2; 3]%Z
      /\ sort_by_lt [p3; p1; p2] = [p1; p2; p3]
      /\ forall l, Permutation [p3; p1; p2] l -> in_order l ->
                   map layer l = [1; 2; 3]%Z).
Proof.
  split; [apply operator_lt_iff|].
  split; [apply operator_eq_iff|].
  split.
  - intros E. unfold operator_eq, operator_lt, operator_ne. rewrite E.
    rewrite Z.eqb_refl, Z.ltb_irrefl. auto.
  - intros H3 H1 H2.
    assert (Hs : sort_by_lt [p3; p1; p2] = [p1; p2; p3]).
    { destruct p3, p1, p2; simpl in H3, H1, H2; subst; reflexivity. }
    split; [|split]; trivial.
    + rewrite Hs; simpl. now rewrite H1, H2, H3.
    + intros l Hp Ho. apply sorted_perm_312.
      * apply (Permutation_map layer) in Hp. simpl in Hp. now rewrite H3, H1, H2 in Hp.
      * now apply in_order_layers.
Qed.

End Ordering.

(** The claim at three values whose colours and other members all differ, and
    at two values that share the layer only. *)
Lemma LightingParameters_ordered_by_layer_only_witness :
  let a := mkLightingParameters "front" Static 4%Z 1%N 2%N 3%N 100%Z in
  let b := mkLightingParameters "rear" Blink 4%Z 7%N 8%N 9%N 250%Z in
  let p3 := mkLightingParameters "left" Fade 3%Z 10%N 11%N 12%N 0%Z in
  let p1 := mkLightingParameters "right" Scan 1%Z 20%N 21%N 22%N 5%Z in
  let p2 := mkLightingParameters "top" Sparkle 2%Z 30%N 31%N 32%N 9%Z in
  (operator_eq a b = true /\ operator_lt a b = false /\ operator_lt b a = false
   /\ operator_ne a b = false)
  /\ sort_by_lt [p3; p1; p2] = [p1; p2; p3]
  /\ map layer [p1; p2; p3] = [1; 2; 3]%Z.
Proof.
  intros a b p3 p1 p2.
  destruct (LightingParameters_ordered_by_layer_only a b p3 p1 p2) as (_ & _ & Heq & Hsort).
  split; [apply Heq; reflexivity|].
  destruct (Hsort eq_refl eq_refl eq_refl) as (_ & Hs & Hall).
  split; [exact Hs|].
  apply Hall; [apply perm_trans with [p1; p3; p2]; [apply perm_swap | apply perm_skip, perm_swap] |].
  repeat constructor.
Defined.

End LightTheory.

(* ------------------------------------------------------------------ *)
(** ** Properties of app.cpp *)
Module AppTheory.
Import FreeRTOS light_h app_cpp Observations.

(** Case analysis on every pointer that the goal tests for NULL. *)
Ltac case_pointers :=
  repeat match goal with
         | |- context [match ?x with Some _ => _ | None => _ end] => destruct x eqn:?
         end.

(** Two states built by the same member updates on [s] are equal once the
    traces are associated the same way. *)
Ltac same_members s :=
  destruct s; cbv -[app Observations.fanout List.remove]; rewrite <- ?app_assoc; reflexivity.

Section Handlers.
Context {platform : Platform}.

Lemma emit_all_nil (s : App) : emit_all [] s = s.
Proof. destruct s; unfold emit_all, set_trace; simpl. now rewrite app_nil_r. Qed.

Lemma emit_all_app (a b : list Event) (s : App) :
  emit_all (a ++ b) s = emit_all b (emit_all a s).
Proof. unfold emit_all, set_trace; simpl. now rewrite app_assoc. Qed.

Lemma emit_emit_all (e : Event) (s : App) : emit e s = emit_all [e] s.
Proof. reflexivity. Qed.

Lemma trace_emit_all (es : list Event) (s : App) :
  trace (emit_all es s) = trace s ++ es.
Proof. reflexivity. Qed.

(** The loop of [notifyLightsChanged] is one fan-out. *)
Lemma notify_loop (c : LightCommands) (ls : list RenderListener) (s : App) :
  fold_left
    (fun s listener =>
       match lightsChangedQueue listener with
       | Some q => emit (ListenerSend q c) s
       | None => s
       end) ls s
  = emit_all (fanout ls c) s.
Proof.
  revert s. induction ls as [|l ls IH]; intros s; simpl.
  - now rewrite emit_all_nil.
  - rewrite IH, emit_all_app. destruct (lightsChangedQueue l); simpl.
    + reflexivity.
    + now rewrite emit_all_nil.
Qed.

Lemma notifyLightsChanged_events (b t h : LightCommand) (s : App) :
  notifyLightsChanged b t h s
  = emit_all (fanout (renderListeners s) (mkLightCommands (lightMode s) b t h)) s.
Proof. unfold notifyLightsChanged. apply notify_loop. Qed.

Lemma command_to_events (q : option QueueHandle) (c : LightCommand) (s : App) :
  match q with Some h => emit (CommandSend h c) s | None => s end
  = emit_all (command_to q c) s.
Proof. destruct q; simpl; [reflexivity | now rewrite emit_all_nil]. Qed.

Lemma setBrakes_events (c : LightCommand) (s : App) (r : Renderer) :
  renderer s = Some r -> setBrakes c s = emit_all (brake_channel r s c) s.
Proof.
  intros Hr. unfold setBrakes, brake_channel. rewrite Hr, command_to_events.
  rewrite notifyLightsChanged_events, emit_all_app. reflexivity.
Qed.

Lemma setTurnLights_events (c : LightCommand) (s : App) (r : Renderer) :
  renderer s = Some r -> setTurnLights c s = emit_all (turn_channel r s c) s.
Proof.
  intros Hr. unfold setTurnLights, turn_channel. rewrite Hr, command_to_events.
  rewrite notifyLightsChanged_events, emit_all_app. reflexivity.
Qed.

Lemma setHeadlight_events (c : LightCommand) (s : App) (r : Renderer) :
  renderer s = Some r -> setHeadlight c s = emit_all (headlight_channel r s c) s.
Proof.
  intros Hr. unfold setHeadlight, headlight_channel. rewrite Hr, command_to_events.
  rewrite notifyLightsChanged_events, emit_all_app. reflexivity.
Qed.

(** Without a renderer the three setters still notify the listeners. *)
Lemma setBrakes_without_renderer (c : LightCommand) (s : App) :
  renderer s = None ->
  setBrakes c s
  = emit_all (fanout (renderListeners s) (mkLightCommands (lightMode s) c NoCommand NoCommand)) s.
Proof. intros Hr. unfold setBrakes. rewrite Hr. apply notifyLightsChanged_events. Qed.

Lemma onAccelerationStateChanged_events (a : AccelerationState) (s : App) (r : Renderer) :
  renderer s = Some r ->
  onAccelerationStateChanged a s = emit_all (brake_channel r s (acceleration_command a)) s.
Proof.
  intros Hr. unfold onAccelerationStateChanged. rewrite Hr.
  rewrite (setBrakes_events _ _ _ Hr). destruct a; reflexivity.
Qed.

Lemma onTurnStateChanged_events (t : TurnState) (s : App) (r : Renderer) :
  renderer s = Some r ->
  onTurnStateChanged t s = emit_all (turn_channel r s (turn_command t)) s.
Proof.
  intros Hr. unfold onTurnStateChanged. rewrite Hr.
  rewrite (setTurnLights_events _ _ _ Hr). destruct t; reflexivity.
Qed.

Lemma onOrientationChanged_events (o : Orientation) (s : App) (r : Renderer) :
  renderer s = Some r ->
  onOrientationChanged o s
  = emit_all (turn_channel r s (orientation_command o)
              ++ brake_channel r s (orientation_command o)
              ++ headlight_channel r s (orientation_command o)) s.
Proof.
  intros Hr. unfold onOrientationChanged. rewrite Hr.
  assert (E : forall c, setHeadlight c (setBrakes c (setTurnLights c s))
            = emit_all (turn_channel r s c ++ brake_channel r s c ++ headlight_channel r s c) s).
  { intros c. rewrite (setTurnLights_events _ _ _ Hr).
    rewrite (setBrakes_events c (emit_all _ s) r) by exact Hr.
    rewrite (setHeadlight_events c (emit_all _ (emit_all _ s)) r) by exact Hr.
    rewrite !emit_all_app. reflexivity. }
  destruct o; apply E.
Qed.

(** C1: with a renderer installed, an acceleration change to [Braking] puts
    [LightsBrake] on the brake channel and any other acceleration state
    [LightsRunning]; a turn change to [Left], [Right], [Hazard] puts
    [LightsTurnLeft], [LightsTurnRight], [LightsTurnHazard] on the turn channel
    and [Center] or any other turn state [LightsTurnCenter]; an orientation
    change to [TopSideUp] puts [LightsOff] on the turn, brake and headlight
    channels in one call and any other orientation [LightsReset] on all three.
    Nothing else happens. *)
Theorem command_mapping_is_exhaustive (s : App) (r : Renderer) :
  renderer s = Some r ->
  onAccelerationStateChanged Braking s = emit_all (brake_channel r s LightsBrake) s
  /\ (forall a, a <> Braking ->
        onAccelerationStateChanged a s = emit_all (brake_channel r s LightsRunning) s)
  /\ onTurnStateChanged Left s = emit_all (turn_channel r s LightsTurnLeft) s
  /\ onTurnStateChanged Right s = emit_all (turn_channel r s LightsTurnRight) s
  /\ onTurnStateChanged Hazard s = emit_all (turn_channel r s LightsTurnHazard) s
  /\ (forall t, t <> Left -> t <> Right -> t <> Hazard ->
        onTurnStateChanged t s = emit_all (turn_channel r s LightsTurnCenter) s)
  /\ onOrientationChanged TopSideUp s
     = emit_all (turn_channel r s LightsOff ++ brake_channel r s LightsOff
                 ++ headlight_channel r s LightsOff) s
  /\ (forall o, o <> TopSideUp ->
        onOrientationChanged o s
        = emit_all (turn_channel r s LightsReset ++ brake_channel r s LightsReset
                    ++ headlight_channel r s LightsReset) s).
Proof.
  intros Hr.
  repeat split;
    try (rewrite (onAccelerationStateChanged_events _ _ _ Hr); reflexivity);
    try (rewrite (onTurnStateChanged_events _ _ _ Hr); reflexivity);
    try (rewrite (onOrientationChanged_events _ _ _ Hr); reflexivity).
  - intros a Ha. rewrite (onAccelerationStateChanged_events _ _ _ Hr).
    destruct a; [contradiction | reflexivity | reflexivity].
  - intros t H1 H2 H3. rewrite (onTurnStateChanged_events _ _ _ Hr).
    destruct t; try contradiction; reflexivity.
  - intros o Ho. rewrite (onOrientationChanged_events _ _ _ Hr).
    destruct o; [contradiction | reflexivity].
Qed.

(** *** The processing cycle *)

Lemma process_split (s : App) :
  process s = (s2 <- process_signals s ;; process_vehicle s2).
Proof.
  unfold process, process_signals, process_vehicle, bind.
  destruct (0 <? uxQueueMessagesWaiting (configUpdatedQueue s)).
  - destruct (xQueueReceive (configUpdatedQueue s) None) as [[received valid] q].
    destruct received, valid as [[|]|]; try reflexivity.
    destruct (onConfigUpdated _) as [s1|]; reflexivity.
  - reflexivity.
Qed.

(** The service polls end the cycle as [ended] says, after the polls that
    [polls_done] lists. *)
Lemma pollServices_ended (s : App) :
  pollServices s = ended s (emit_all (polls_done s) s).
Proof.
  unfold pollServices, ended, services_ok, polls_done.
  destruct BLE_ENABLED; simpl; [|now rewrite emit_all_nil].
  change (batteryService (emit VehicleServiceProcess s)) with (batteryService s).
  change (updateService (emit BatteryServiceProcess (emit VehicleServiceProcess s)))
    with (updateService s).
  destruct (vehicleService s), (batteryService s), (updateService s); simpl;
    rewrite ?emit_all_nil; try reflexivity;
    f_equal; destruct s; unfold emit, emit_all, set_trace; simpl;
    now rewrite <- ?app_assoc.
Qed.

Lemma ended_ok (s st : App) : services_ok s = true -> ended s st = Returned st.
Proof. intros H. unfold ended. now rewrite H. Qed.

Lemma outcome_of_ended (s st : App) :
  match ended s st with Returned x => x | Aborted _ x => x end = st.
Proof. unfold ended. now destruct (services_ok s). Qed.

(** The loop empties the queue; its local ends as the newest message. *)
Lemma drainVehicleQueue_all (l : list VehicleState) :
  forall (cap : nat) (state : option VehicleState) (flag : bool),
  drainVehicleQueue (List.length l) (mkQueue cap l) state flag
  = (mkQueue cap [],
     fold_left (fun _ x => Some x) l state,
     match l with [] => flag | _ :: _ => true end).
Proof.
  induction l as [|x l IH]; intros cap state flag; simpl.
  - reflexivity.
  - unfold xQueueReceive; simpl. rewrite IH. destruct l; reflexivity.
Qed.

(** More fuel changes nothing: the loop stops because the queue is empty. *)
Lemma drainVehicleQueue_fuel (l : list VehicleState) (extra : nat) :
  forall (cap : nat) (state : option VehicleState) (flag : bool),
  drainVehicleQueue (List.length l + extra) (mkQueue cap l) state flag
  = drainVehicleQueue (List.length l) (mkQueue cap l) state flag.
Proof.
  induction l as [|x l IH]; intros cap state flag; simpl.
  - destruct extra; reflexivity.
  - unfold xQueueReceive; simpl. apply IH.
Qed.

Lemma newest_of_queue (l : list VehicleState) (z : VehicleState) (state : option VehicleState) :
  fold_left (fun _ x => Some x) (l ++ [z]) state = Some z.
Proof. now rewrite fold_left_app. Qed.

Lemma set_vehicleQueue_same (s : App) : set_vehicleQueue (vehicleQueue s) s = s.
Proof. now destruct s. Qed.

(** No message waiting: the second half of the cycle only polls the services. *)
Lemma process_vehicle_idle (s : App) :
  items (vehicleQueue s) = [] ->
  process_vehicle s = ended s (emit_all (service_events None s) s).
Proof.
  intros He. unfold process_vehicle, uxQueueMessagesWaiting. rewrite He; simpl.
  rewrite set_vehicleQueue_same. apply pollServices_ended.
Qed.

(** The handlers that the cycle runs for a new state [st]. *)
Lemma handlers_events (st : VehicleState) (s : App) :
  let a :=
    if AccelerationState_eq_dec (acceleration (vehicleState s)) (acceleration st)
    then s else onAccelerationStateChanged (acceleration st) s in
  let b :=
    if TurnState_eq_dec (turn (vehicleState a)) (turn st)
    then a else onTurnStateChanged (turn st) a in
  (if Orientation_eq_dec (orientation (vehicleState b)) (orientation st)
   then b else onOrientationChanged (orientation st) b)
  = emit_all (state_change_events st s) s.
Proof.
  unfold state_change_events. destruct (renderer s) as [r|] eqn:Hr.
  - destruct (AccelerationState_eq_dec _ _) as [Ea|Ea]; cbv zeta.
    + destruct (TurnState_eq_dec _ _) as [Et|Et].
      * destruct (Orientation_eq_dec _ _) as [Eo|Eo].
        -- now rewrite emit_all_nil.
        -- now rewrite (onOrientationChanged_events _ _ _ Hr).
      * rewrite (onTurnStateChanged_events _ _ _ Hr).
        change (vehicleState (emit_all ?es s)) with (vehicleState s).
        destruct (Orientation_eq_dec _ _) as [Eo|Eo].
        -- now rewrite app_nil_r.
        -- rewrite (onOrientationChanged_events _ (emit_all _ s) r) by exact Hr.
           rewrite <- emit_all_app. reflexivity.
    + rewrite (onAccelerationStateChanged_events _ _ _ Hr).
      change (vehicleState (emit_all ?es s)) with (vehicleState s).
      destruct (TurnState_eq_dec _ _) as [Et|Et].
      * destruct (Orientation_eq_dec _ _) as [Eo|Eo].
        -- now rewrite !app_nil_r.
        -- rewrite (onOrientationChanged_events _ (emit_all _ s) r) by exact Hr.
           rewrite <- emit_all_app. reflexivity.
      * rewrite (onTurnStateChanged_events _ (emit_all _ s) r) by exact Hr.
        change (vehicleState (emit_all ?es (emit_all ?es' s))) with (vehicleState s).
        destruct (Orientation_eq_dec _ _) as [Eo|Eo].
        -- rewrite app_nil_r, <- emit_all_app. reflexivity.
        -- rewrite (onOrientationChanged_events _ (emit_all _ (emit_all _ s)) r) by exact Hr.
           rewrite <- !emit_all_app, <- ?app_assoc. reflexivity.
  - unfold onAccelerationStateChanged, onTurnStateChanged, onOrientationChanged.
    cbv zeta. rewrite Hr.
    destruct (AccelerationState_eq_dec _ _); rewrite Hr;
      destruct (TurnState_eq_dec _ _); rewrite ?Hr;
      destruct (Orientation_eq_dec _ _); now rewrite emit_all_nil.
Qed.

(** Messages waiting: the second half of the cycle acts on the newest only. *)
Lemma process_vehicle_newest (s : App) (cap : nat) (l : list VehicleState) (z : VehicleState) :
  vehicleQueue s = mkQueue cap (l ++ [z]) ->
  process_vehicle s
  = ended s (cycle_result cap z (state_change_events z s ++ service_events (Some z) s) s).
Proof.
  intros Hq. unfold process_vehicle, uxQueueMessagesWaiting. rewrite Hq.
  cbn [items]. rewrite drainVehicleQueue_all, newest_of_queue.
  replace (match l ++ [z] with [] => false | _ :: _ => true end) with true
    by (destruct l; reflexivity).
  cbv zeta.
  pose proof (handlers_events z (set_vehicleQueue (mkQueue cap []) s)) as Hh.
  cbv zeta in Hh. rewrite Hh. clear Hh.
  change (state_change_events z (set_vehicleQueue (mkQueue cap []) s))
    with (state_change_events z s).
  change (vehicleService (emit_all ?es ?x)) with (vehicleService x).
  change (vehicleService (set_vehicleQueue ?q ?x)) with (vehicleService x).
  set (fwd := if BLE_ENABLED && vehicleService s then [VehicleServiceStateChanged z] else []).
  set (c := emit_all (state_change_events z s) (set_vehicleQueue (mkQueue cap []) s)).
  assert (E : (if BLE_ENABLED && vehicleService s
               then emit (VehicleServiceStateChanged z) c else c) = emit_all fwd c).
  { unfold fwd. destruct (BLE_ENABLED && vehicleService s);
      [reflexivity | now rewrite emit_all_nil]. }
  rewrite E, pollServices_ended.
  change (ended (set_vehicleState z (emit_all fwd c))) with (ended s).
  change (polls_done (set_vehicleState z (emit_all fwd c))) with (polls_done s).
  f_equal. unfold cycle_result, service_events. fold fwd.
  unfold c. clear. destruct s; unfold emit_all, set_trace; simpl.
  now rewrite <- !app_assoc.
Qed.

(** *** Mode changes *)

Lemma setLightMode_same (m : LightMode) (s : App) :
  lightMode s = m -> setLightMode m s = Returned s.
Proof.
  intros E. unfold setLightMode. destruct (LightMode_eq_dec (lightMode s) m); [reflexivity | contradiction].
Qed.

(** A request for another mode, when the teardown step has what it needs. *)
Lemma setLightMode_change (m : LightMode) (s : App) :
  lightMode s <> m ->
  (renderHostHandle s = None \/ renderer s <> None) ->
  setLightMode m s
  = match built_for m with
    | Some r => Returned (installed m r (torn_down s))
    | None => Aborted BadAlloc (torn_down s)
    end.
Proof.
  intros Hm Hok. unfold setLightMode, notifyLightsChanged_default.
  destruct (LightMode_eq_dec (lightMode s) m) as [E|_]; [contradiction|].
  unfold torn_down, installed, built_for, construction_events, assign_new_renderer, bind.
  destruct (renderHostHandle s) as [h|] eqn:Hh.
  - destruct (renderer s) as [r0|] eqn:Hr; [|destruct Hok; congruence].
    change (renderer (vTaskDelete h s)) with (renderer s). rewrite Hr.
    destruct m; case_pointers;
      rewrite ?notifyLightsChanged_events; f_equal; same_members s.
  - destruct m; case_pointers;
      rewrite ?notifyLightsChanged_events; f_equal; same_members s.
Qed.

(** A task handle without a renderer: [renderer->shutdown()] goes through NULL. *)
Lemma setLightMode_null_renderer (m : LightMode) (s : App) (h : TaskHandle) :
  lightMode s <> m -> renderHostHandle s = Some h -> renderer s = None ->
  setLightMode m s = Aborted NullDereference (vTaskDelete h s).
Proof.
  intros Hm Hh Hr. unfold setLightMode.
  destruct (LightMode_eq_dec (lightMode s) m) as [E|_]; [contradiction|].
  rewrite Hh. change (renderer (vTaskDelete h s)) with (renderer s). now rewrite Hr.
Qed.

(** *** The first half of the cycle does not look at the vehicle queue *)





Lemma process_signals_idle (s : App) :
  no_signal_pending s -> process_signals s = Returned s.
Proof.
  intros [Hc Hm]. unfold process_signals, uxQueueMessagesWaiting.
  rewrite Hc; simpl. now rewrite Hm.
Qed.

(** A cycle with no configuration or mode message pending. *)
Lemma process_cycle (s : App) (cap : nat) (l : list VehicleState) (z : VehicleState) :
  no_signal_pending s ->
  vehicleQueue s = mkQueue cap (l ++ [z]) ->
  process s
  = ended s (cycle_result cap z (state_change_events z s ++ service_events (Some z) s) s).
Proof.
  intros Hn Hq. rewrite process_split, (process_signals_idle _ Hn). simpl.
  now rewrite (process_vehicle_newest s cap l z Hq).
Qed.

(** The same cycle returns when its service polls get through. *)
Lemma process_cycle_returns (s : App) (cap : nat) (l : list VehicleState) (z : VehicleState) :
  no_signal_pending s ->
  vehicleQueue s = mkQueue cap (l ++ [z]) ->
  services_ok s = true ->
  process s
  = Returned (cycle_result cap z (state_change_events z s ++ service_events (Some z) s) s).
Proof.
  intros Hn Hq Hok. rewrite (process_cycle s cap l z Hn Hq). now apply ended_ok.
Qed.

Lemma process_idle (s : App) :
  no_signal_pending s ->
  items (vehicleQueue s) = [] ->
  process s = ended s (emit_all (service_events None s) s).
Proof.
  intros Hn Hq. rewrite process_split, (process_signals_idle _ Hn). simpl.
  now rewrite (process_vehicle_idle s Hq).
Qed.


(** *** What the observers see of the events *)

Lemma notifications_app (a b : list Event) :
  notifications (a ++ b) = notifications a ++ notifications b.
Proof. apply flat_map_app. Qed.

Lemma commands_sent_app (a b : list Event) :
  commands_sent (a ++ b) = commands_sent a ++ commands_sent b.
Proof. apply flat_map_app. Qed.

Lemma notifications_command_to (q : option QueueHandle) (c : LightCommand) :
  notifications (command_to q c) = [].
Proof. now destruct q. Qed.

Lemma commands_sent_fanout (ls : list RenderListener) (c : LightCommands) :
  commands_sent (fanout ls c) = [].
Proof.
  induction ls as [|l ls IH]; simpl; [reflexivity|].
  unfold fanout in *; simpl. rewrite commands_sent_app, IH.
  now destruct (lightsChangedQueue l).
Qed.

Lemma notifications_service_events (o : option VehicleState) (s : App) :
  notifications (service_events o s) = [].
Proof.
  unfold service_events, polls_done. rewrite notifications_app.
  destruct o; destruct BLE_ENABLED; simpl; try reflexivity;
    destruct (vehicleService s), (batteryService s), (updateService s); reflexivity.
Qed.

Lemma commands_sent_service_events (o : option VehicleState) (s : App) :
  commands_sent (service_events o s) = [].
Proof.
  unfold service_events, polls_done. rewrite commands_sent_app.
  destruct o; destruct BLE_ENABLED; simpl; try reflexivity;
    destruct (vehicleService s), (batteryService s), (updateService s); reflexivity.
Qed.







Lemma commands_sent_headlight_channel r s c :
  commands_sent (headlight_channel r s c) = commands_sent (command_to (headlightQueue r) c).
Proof. unfold headlight_channel. now rewrite commands_sent_app, commands_sent_fanout, app_nil_r. Qed.

(** Every bundle of a fan-out is the bundle that was sent. *)
Lemma in_fanout (ls : list RenderListener) (c : LightCommands) (e : Event) :
  In e (fanout ls c) -> exists q, e = ListenerSend q c.
Proof.
  unfold fanout. rewrite in_flat_map. intros (l & _ & Hl).
  destruct (lightsChangedQueue l) as [q|]; simpl in Hl; [|contradiction].
  destruct Hl as [<-|[]]. now exists q.
Qed.

Lemma in_command_to (q : option QueueHandle) (c : LightCommand) (e : Event) :
  In e (command_to q c) -> exists h, e = CommandSend h c.
Proof. destruct q as [h|]; simpl; [intros [<-|[]]; now exists h | contradiction]. Qed.

Lemma bundle_of_brake_channel r s x q c :
  In (ListenerSend q c) (brake_channel r s x) ->
  c = mkLightCommands (lightMode s) x NoCommand NoCommand.
Proof.
  unfold brake_channel. rewrite in_app_iff. intros [H|H].
  - apply in_command_to in H. destruct H as (h & H). discriminate H.
  - apply in_fanout in H. destruct H as (q' & H). now injection H.
Qed.

Lemma bundle_of_turn_channel r s x q c :
  In (ListenerSend q c) (turn_channel r s x) ->
  c = mkLightCommands (lightMode s) NoCommand x NoCommand.
Proof.
  unfold turn_channel. rewrite in_app_iff. intros [H|H].
  - apply in_command_to in H. destruct H as (h & H). discriminate H.
  - apply in_fanout in H. destruct H as (q' & H). now injection H.
Qed.

Lemma bundle_of_headlight_channel r s x q c :
  In (ListenerSend q c) (headlight_channel r s x) ->
  c = mkLightCommands (lightMode s) NoCommand NoCommand x.
Proof.
  unfold headlight_channel. rewrite in_app_iff. intros [H|H].
  - apply in_command_to in H. destruct H as (h & H). discriminate H.
  - apply in_fanout in H. destruct H as (q' & H). now injection H.
Qed.




(** C10: while no renderer is installed the three state-change handlers do
    nothing at all, so a change of the vehicle state sends no command to a
    renderer queue and no bundle to a listener; a whole cycle that takes a
    new vehicle state then only stores it (and polls the services, returning
    when the polls get through). *)
Theorem no_renderer_no_output (s : App) :
  renderer s = None ->
  (forall a, onAccelerationStateChanged a s = s)
  /\ (forall t, onTurnStateChanged t s = s)
  /\ (forall o, onOrientationChanged o s = s)
  /\ (forall cap l z,
        no_signal_pending s ->
        vehicleQueue s = mkQueue cap (l ++ [z]) ->
        exists s' es,
          process s = ended s s'
          /\ (services_ok s = true -> process s = Returned s')
          /\ trace s' = trace s ++ es
          /\ commands_sent es = []
          /\ notifications es = []
          /\ vehicleState s' = z).
Proof.
  intros Hr.
  split; [intros a; unfold onAccelerationStateChanged; now rewrite Hr|].
  split; [intros t; unfold onTurnStateChanged; now rewrite Hr|].
  split; [intros o; unfold onOrientationChanged; now rewrite Hr|].
  intros cap l z Hn Hq.
  exists (cycle_result cap z (state_change_events z s ++ service_events (Some z) s) s),
         (state_change_events z s ++ service_events (Some z) s).
  split; [now apply process_cycle with l|].
  split; [intros Hok; now apply process_cycle_returns with l|].
  split; [reflexivity|].
  unfold state_change_events. rewrite Hr. simpl.
  now rewrite commands_sent_service_events, notifications_service_events.
Qed.

(** *** The events of a mode change *)

Lemma setLightMode_returned (m : LightMode) (s s1 : App) :
  lightMode s <> m ->
  setLightMode m s = Returned s1 ->
  exists r, built_for m = Some r /\ s1 = installed m r (torn_down s).
Proof.
  intros Hm H.
  destruct (renderHostHandle s) as [h|] eqn:Hh.
  - destruct (renderer s) as [r0|] eqn:Hr.
    + rewrite setLightMode_change in H by (auto; right; congruence).
      destruct (built_for m) as [r|]; [|discriminate]. exists r. split; congruence.
    + rewrite (setLightMode_null_renderer m s h Hm Hh Hr) in H. discriminate.
  - rewrite setLightMode_change in H by auto.
    destruct (built_for m) as [r|]; [|discriminate]. exists r. split; congruence.
Qed.

Lemma trace_torn_down (s : App) :
  trace (torn_down s) = trace s ++ teardown_events s.
Proof.
  unfold torn_down, teardown_events.
  destruct (renderHostHandle s), (renderer s); simpl; now rewrite ?app_nil_r.
Qed.

Lemma torn_down_keeps (s : App) :
  renderListeners (torn_down s) = renderListeners s
  /\ nextTask (torn_down s) = nextTask s
  /\ lightMode (torn_down s) = lightMode s.
Proof. unfold torn_down. destruct (renderHostHandle s), (renderer s); auto. Qed.

(** The order of the events of a successful mode change: teardown, if any,
    then construction, then the new task, then the fan-out. *)
Lemma mode_change_events (m : LightMode) (r : Renderer) (s : App) :
  trace (installed m r (torn_down s))
  = trace s
    ++ teardown_events s
    ++ construction_events m r
    ++ [TaskCreate (nextTask s)]
    ++ fanout (renderListeners s) (mkLightCommands m NoCommand NoCommand NoCommand).
Proof.
  destruct (torn_down_keeps s) as (Hl & Hn & _).
  unfold installed.
  cbn [trace set_lightMode set_nextTask set_tasks set_renderer emit_all set_trace].
  rewrite trace_torn_down, Hl, Hn.
  now rewrite <- !app_assoc.
Qed.

Lemma renderers_built_app (a b : list Event) :
  renderers_built (a ++ b) = renderers_built a ++ renderers_built b.
Proof. apply flat_map_app. Qed.

Lemma renderers_built_fanout (ls : list RenderListener) (c : LightCommands) :
  renderers_built (fanout ls c) = [].
Proof.
  induction ls as [|l ls IH]; simpl; [reflexivity|].
  unfold fanout in *; simpl. rewrite renderers_built_app, IH.
  now destruct (lightsChangedQueue l).
Qed.

Lemma mode_change_observed (m : LightMode) (r : Renderer) (s : App) :
  let es := teardown_events s ++ construction_events m r ++ [TaskCreate (nextTask s)]
            ++ fanout (renderListeners s) (mkLightCommands m NoCommand NoCommand NoCommand) in
  renderers_built es = [r]
  /\ notifications es
     = deliveries (renderListeners s) (mkLightCommands m NoCommand NoCommand NoCommand).
Proof.
  cbv zeta. rewrite !renderers_built_app, !notifications_app, renderers_built_fanout.
  split.
  - unfold teardown_events. destruct (renderHostHandle s), (renderer s), m; reflexivity.
  - unfold teardown_events. destruct (renderHostHandle s), (renderer s), m; reflexivity.
Qed.

(** C3: a request for the mode that is current changes nothing and causes no
    event; so after any [setLightMode m] that returned, a second
    [setLightMode m] is a no-op, and the two calls together, made when another
    mode was current, build exactly one renderer and fan one bundle (without
    commands) out to the listeners. *)
Theorem setLightMode_is_idempotent (m : LightMode) (s : App) :
  (lightMode s = m -> setLightMode m s = Returned s)
  /\ (forall s1, setLightMode m s = Returned s1 -> setLightMode m s1 = Returned s1)
  /\ (forall s1, lightMode s <> m -> setLightMode m s = Returned s1 ->
        exists r es,
          (s1' <- setLightMode m s ;; setLightMode m s1') = Returned s1
          /\ trace s1 = trace s ++ es
          /\ renderers_built es = [r]
          /\ notifications es
             = deliveries (renderListeners s)
                 (mkLightCommands m NoCommand NoCommand NoCommand)).
Proof.
  assert (Hsecond : forall s1, setLightMode m s = Returned s1 -> setLightMode m s1 = Returned s1).
  { intros s1 H. apply setLightMode_same.
    destruct (LightMode_eq_dec (lightMode s) m) as [E|E].
    - rewrite (setLightMode_same m s E) in H. congruence.
    - destruct (setLightMode_returned m s s1 E H) as (r & _ & ->). reflexivity. }
  split; [apply setLightMode_same|]. split; [exact Hsecond|].
  intros s1 Hm H.
  destruct (setLightMode_returned m s s1 Hm H) as (r & Hb & E).
  exists r. eexists. split; [rewrite H; simpl; now apply Hsecond|].
  split; [rewrite E; apply mode_change_events|].
  apply mode_change_observed.
Qed.

(** C7 (the code at the member the claim names): the struct [LightCommands]
    that light.h declares has the three command members and no member [mode],
    while the bundle that [notifyLightsChanged] fills and sends to every
    listener is assigned a member [mode], the current [lightMode], besides
    the three commands it was called with. *)
Theorem LightCommands_declares_no_mode :
  map snd LightCommands_decl = ["brakeCommand"; "turnCommand"; "headlightCommand"]
  /\ has_member LightCommands_decl "mode" = false
  /\ (forall b t h s,
        notifyLightsChanged b t h s
        = emit_all (fanout (renderListeners s) (mkLightCommands (lightMode s) b t h)) s).
Proof.
  split; [reflexivity|]. split; [reflexivity|].
  intros b t h s. apply notifyLightsChanged_events.
Qed.

(** *** The task handle *)

Lemma fanout_unobserved {A : Type} (f : Event -> list A)
    (ls : list RenderListener) (c : LightCommands) :
  (forall q, f (ListenerSend q c) = []) ->
  flat_map f (fanout ls c) = [].
Proof.
  intros Hf. induction ls as [|l ls IH]; [reflexivity|].
  unfold fanout in *. simpl. rewrite flat_map_app, IH.
  destruct (lightsChangedQueue l); simpl; [now rewrite Hf | reflexivity].
Qed.

(** No mode change records the handle of the task it creates: afterwards
    [renderHostHandle] is NULL while the new task is alive, so the next mode
    change finds nothing to tear down. *)
Lemma render_host_handle_is_never_recorded (m : LightMode) (s s1 : App) :
  lightMode s <> m ->
  setLightMode m s = Returned s1 ->
  renderHostHandle s1 = None
  /\ In (nextTask s) (tasks s1)
  /\ forall m2 s2, lightMode s1 <> m2 -> setLightMode m2 s1 = Returned s2 ->
       exists es,
         trace s2 = trace s1 ++ es
         /\ tasks_deleted es = []
         /\ renderers_shut_down es = []
         /\ In (nextTask s) (tasks s2).
Proof.
  intros Hm H. destruct (setLightMode_returned m s s1 Hm H) as (r & Hb & E).
  assert (Hh : renderHostHandle s1 = None).
  { rewrite E. unfold installed, torn_down.
    destruct (renderHostHandle s) as [h|] eqn:Hs; [|exact Hs].
    destruct (renderer s) eqn:Hr; [reflexivity|].
    rewrite (setLightMode_null_renderer m s h Hm Hs Hr) in H. discriminate. }
  assert (Ht : In (nextTask s) (tasks s1)).
  { rewrite E. destruct (torn_down_keeps s) as (_ & Hn & _).
    unfold installed. cbn [tasks set_lightMode set_nextTask set_tasks].
    rewrite Hn. apply in_or_app. right. now left. }
  split; [exact Hh|]. split; [exact Ht|].
  intros m2 s2 Hm2 H2.
  destruct (setLightMode_returned m2 s1 s2 Hm2 H2) as (r2 & Hb2 & E2).
  assert (Htd : torn_down s1 = s1) by (unfold torn_down; now rewrite Hh).
  assert (Hte : teardown_events s1 = []) by (unfold teardown_events; now rewrite Hh).
  eexists. split; [rewrite E2; apply mode_change_events|].
  rewrite Hte. simpl app.
  split; [|split].
  - unfold tasks_deleted. rewrite flat_map_app. simpl.
    rewrite fanout_unobserved by reflexivity. now destruct m2.
  - unfold renderers_shut_down. rewrite flat_map_app. simpl.
    rewrite fanout_unobserved by reflexivity. now destruct m2.
  - rewrite E2, Htd. unfold installed. cbn [tasks set_lightMode set_nextTask set_tasks].
    apply in_or_app. now left.
Qed.

(** *** A construction that fails *)

Lemma setLightMode_bad_alloc (m : LightMode) (s s' : App) :
  setLightMode m s = Aborted BadAlloc s' ->
  lightMode s <> m /\ built_for m = None /\ s' = torn_down s
  /\ (renderHostHandle s = None \/ renderer s <> None).
Proof.
  intros H.
  destruct (LightMode_eq_dec (lightMode s) m) as [E|E].
  - rewrite (setLightMode_same m s E) in H. discriminate.
  - assert (Hok : renderHostHandle s = None \/ renderer s <> None).
    { destruct (renderHostHandle s) as [h|] eqn:Hh; [|now left].
      destruct (renderer s) as [r0|] eqn:Hr; [right; discriminate|].
      rewrite (setLightMode_null_renderer m s h E Hh Hr) in H. discriminate. }
    rewrite (setLightMode_change m s E Hok) in H.
    destruct (built_for m); [discriminate|]. injection H as <-. auto.
Qed.

(** Where the task handle is on record the teardown runs before the
    construction, so a failed construction leaves no renderer behind and the
    state-change handlers do nothing afterwards. *)
Lemma failure_with_handle_leaves_no_renderer (m : LightMode) (s : App) :
  renderHostHandle s <> None -> failure_leaves_no_renderer m s.
Proof.
  intros Hh s' H. destruct (setLightMode_bad_alloc m s s' H) as (_ & _ & -> & Hok).
  assert (Hr : renderer (torn_down s) = None).
  { unfold torn_down. destruct (renderHostHandle s) as [h|]; [|contradiction].
    destruct (renderer s); [reflexivity | destruct Hok; congruence]. }
  split; [exact Hr|].
  split; [intros a; unfold onAccelerationStateChanged; now rewrite Hr|].
  split; [intros t; unfold onTurnStateChanged; now rewrite Hr|].
  intros o; unfold onOrientationChanged; now rewrite Hr.
Qed.

(** Where no task handle is on record the teardown is skipped, and a failed
    construction leaves the object as it was, renderer included. *)
Lemma failure_without_handle_changes_nothing (m : LightMode) (s s' : App) :
  renderHostHandle s = None ->
  setLightMode m s = Aborted BadAlloc s' ->
  s' = s.
Proof.
  intros Hh H. destruct (setLightMode_bad_alloc m s s' H) as (_ & _ & -> & _).
  unfold torn_down. now rewrite Hh.
Qed.

End Handlers.

(** *** The properties at concrete states *)
Import Scenario.

(** C4 (the code at two mode changes in a row): the first mode change leaves
    its render host task alive and [renderHostHandle] NULL, because the handle
    is passed to [xTaskCreatePinnedToCore] by value and never assigned.  The
    second mode change therefore skips the teardown: it deletes no task and
    shuts no renderer down before it builds the next renderer and creates a
    second task, and both tasks are alive afterwards. *)
Theorem second_mode_change_tears_nothing_down :
  setLightMode (platform := healthy) RainbowMode boot = Returned rainbow
  /\ tasks rainbow = [0]
  /\ renderer rainbow = Some (pattern_renderer "rainbow")
  /\ renderHostHandle rainbow = None
  /\ exists s2 es,
       setLightMode (platform := healthy) LightningMode rainbow = Returned s2
       /\ trace s2 = trace rainbow ++ es
       /\ es = [ RendererNew (pattern_renderer "lightning");
                 TaskCreate 1;
                 ListenerSend 30 (mkLightCommands LightningMode NoCommand NoCommand NoCommand);
                 ListenerSend 31 (mkLightCommands LightningMode NoCommand NoCommand NoCommand) ]
       /\ tasks_deleted es = []
       /\ renderers_shut_down es = []
       /\ tasks s2 = [0; 1].
Proof.
  split; [vm_compute; reflexivity|].
  split; [vm_compute; reflexivity|].
  split; [vm_compute; reflexivity|].
  split; [vm_compute; reflexivity|].
  exists (returned (setLightMode (platform := healthy) LightningMode rainbow)).
  eexists.
  split; [vm_compute; reflexivity|].
  split; [|split; [reflexivity|]].
  - vm_compute; reflexivity.
  - repeat split; vm_compute; reflexivity.
Qed.

(** C9 (the code at a failed construction after a mode change): the first
    mode change installs the theater-chase renderer and leaves
    [renderHostHandle] NULL, as every mode change does.  When the construction
    of the rainbow renderer then fails, the teardown of lines 180-186 has been
    skipped, so [setLightMode] is left with the renderer pointer still on the
    theater-chase renderer, which was not shut down; the renderer pointer is
    not null, and a braking change afterwards is not dropped but sent to
    that renderer's brake queue. *)
Theorem failed_construction_keeps_the_old_renderer :
  setLightMode (platform := starved) TheaterChaseMode boot = Returned chasing
  /\ renderer chasing = Some (pattern_renderer "theater-chase")
  /\ renderHostHandle chasing = None
  /\ tasks chasing = [0]
  /\ setLightMode (platform := starved) RainbowMode chasing = Aborted BadAlloc chasing
  /\ renderers_shut_down (trace chasing) = []
  /\ commands_sent (trace chasing) = []
  /\ commands_sent
       (trace (onAccelerationStateChanged (platform := starved) Braking chasing))
     = [(20, LightsBrakeActive)].
Proof.
  do 7 (split; [vm_compute; reflexivity|]). vm_compute; reflexivity.
Qed.

Lemma command_mapping_is_exhaustive_witness :
  renderer rainbow = Some (pattern_renderer "rainbow")
  /\ onAccelerationStateChanged (platform := healthy) Braking rainbow
     = emit_all (brake_channel (pattern_renderer "rainbow") rainbow LightsBrakeActive) rainbow
  /\ onTurnStateChanged (TurnState_other 9) rainbow
     = emit_all (turn_channel (pattern_renderer "rainbow") rainbow LightsTurnCenter) rainbow
  /\ onOrientationChanged (Orientation_other 1) rainbow
     = emit_all (turn_channel (pattern_renderer "rainbow") rainbow LightsReset
                 ++ brake_channel (pattern_renderer "rainbow") rainbow LightsReset
                 ++ headlight_channel (pattern_renderer "rainbow") rainbow LightsReset) rainbow.
Proof.
  destruct (command_mapping_is_exhaustive (platform := healthy)
              rainbow (pattern_renderer "rainbow") eq_refl)
    as (Hb & _ & _ & _ & _ & Ht & _ & Ho).
  split; [reflexivity|]. split; [exact Hb|].
  split; [apply Ht; discriminate | apply Ho; discriminate].
Defined.


Lemma setLightMode_is_idempotent_witness :
  lightMode boot <> RainbowMode
  /\ setLightMode (platform := healthy) RainbowMode boot = Returned rainbow
  /\ setLightMode (platform := healthy) RainbowMode rainbow = Returned rainbow
  /\ exists r es,
       (s1 <- setLightMode (platform := healthy) RainbowMode boot ;;
        setLightMode (platform := healthy) RainbowMode s1) = Returned rainbow
       /\ trace rainbow = trace boot ++ es
       /\ renderers_built es = [r]
       /\ notifications es
          = deliveries (renderListeners boot)
              (mkLightCommands RainbowMode NoCommand NoCommand NoCommand).
Proof.
  destruct (setLightMode_is_idempotent (platform := healthy) RainbowMode boot)
    as (_ & H2 & H3).
  split; [discriminate|]. split; [vm_compute; reflexivity|].
  split; [apply H2; vm_compute; reflexivity|].
  apply H3; [discriminate | vm_compute; reflexivity].
Defined.


Lemma no_renderer_no_output_witness :
  renderer dark_three_waiting = None
  /\ services_ok (platform := healthy) dark_three_waiting = true
  /\ onOrientationChanged TopSideUp dark_three_waiting
     = dark_three_waiting
  /\ exists s' es,
       process (platform := healthy) dark_three_waiting = Returned s'
       /\ trace s' = trace dark_three_waiting ++ es
       /\ commands_sent es = []
       /\ notifications es = []
       /\ vehicleState s' = stateC.
Proof.
  assert (Hr : renderer dark_three_waiting = None) by (vm_compute; reflexivity).
  assert (Hok : services_ok (platform := healthy) dark_three_waiting = true)
    by (vm_compute; reflexivity).
  destruct (no_renderer_no_output (platform := healthy) dark_three_waiting Hr)
    as (_ & _ & Ho & Hp).
  split; [exact Hr|]. split; [exact Hok|]. split; [apply Ho|].
  destruct (Hp 5 [stateA; stateB] stateC) as (s' & es & _ & H1 & H2 & H3 & H4 & H5);
    [split; vm_compute; reflexivity | vm_compute; reflexivity |].
  exists s', es. split; [exact (H1 Hok)|]. repeat split; assumption.
Defined.

End AppTheory.

(* ------------------------------------------------------------------ *)
(** ** More properties of models/light.h: the six comparison operators *)
Module LightOrderTheory.
Import light_h.

Section Operators.
Context {Color : Type}.
Implicit Types a b c : LightingParameters Color.

(** X1: the six comparison operators of [LightingParameters] agree with one
    another: [>] is [<] flipped, [<=] and [>=] are the negations of the flipped
    and the plain [<], [!=] is the negation of [==], two values are [==]
    exactly when neither is [<] the other, and of [<], [==], [>] exactly one
    holds. *)
Theorem comparison_operators_agree a b :
  operator_gt a b = operator_lt b a
  /\ operator_le a b = negb (operator_lt b a)
  /\ operator_ge a b = negb (operator_lt a b)
  /\ operator_ne a b = negb (operator_eq a b)
  /\ operator_eq a b = negb (operator_lt a b) && negb (operator_lt b a)
  /\ ((operator_lt a b = true /\ operator_eq a b = false /\ operator_gt a b = false)
      \/ (operator_lt a b = false /\ operator_eq a b = true /\ operator_gt a b = false)
      \/ (operator_lt a b = false /\ operator_eq a b = false /\ operator_gt a b = true)).
Proof.
  unfold operator_gt, operator_le, operator_ge, operator_ne, operator_eq, operator_lt.
  rewrite Z.gtb_ltb, Z.geb_leb.
  destruct (Z.ltb_spec (layer a) (layer b)), (Z.ltb_spec (layer b) (layer a)),
    (Z.eqb_spec (layer a) (layer b)), (Z.leb_spec (layer a) (layer b)),
    (Z.leb_spec (layer b) (layer a)); try lia; simpl; repeat split; auto.
Qed.

(** X2: [operator<] is a strict weak ordering, which is what sorting and
    priority queues need: it is irreflexive, asymmetric and transitive, two
    values that are not [<] either way are [==], and [==] is transitive and
    cannot be told apart by [<]. *)
Theorem operator_lt_is_strict_weak_order a b c :
  operator_lt a a = false
  /\ (operator_lt a b = true -> operator_lt b a = false)
  /\ (operator_lt a b = true -> operator_lt b c = true -> operator_lt a c = true)
  /\ (operator_lt a b = false -> operator_lt b a = false -> operator_eq a b = true)
  /\ (operator_eq a b = true -> operator_eq b c = true -> operator_eq a c = true)
  /\ (operator_eq a b = true ->
      operator_lt a c = operator_lt b c /\ operator_lt c a = operator_lt c b).
Proof.
  unfold operator_eq, operator_lt.
  split; [apply Z.ltb_irrefl|].
  split; [rewrite Z.ltb_lt, Z.ltb_ge; lia|].
  split; [rewrite !Z.ltb_lt; lia|].
  split; [rewrite !Z.ltb_ge, Z.eqb_eq; lia|].
  split; [rewrite !Z.eqb_eq; congruence|].
  rewrite Z.eqb_eq. intros E. now rewrite E.
Qed.

End Operators.

Lemma operator_lt_is_strict_weak_order_witness :
  let a := mkLightingParameters "front" Static 1%Z 1%N 2%N 3%N 100%Z in
  let b := mkLightingParameters "rear" Blink 2%Z 7%N 8%N 9%N 250%Z in
  let b' := mkLightingParameters "side" Fade 2%Z 0%N 0%N 0%N 1%Z in
  let c := mkLightingParameters "top" Scan 3%Z 4%N 5%N 6%N 0%Z in
  operator_lt a c = true
  /\ operator_lt b a = false
  /\ operator_eq b b' = true
  /\ operator_lt b c = operator_lt b' c.
Proof.
  intros a b b' c.
  destruct (operator_lt_is_strict_weak_order a b c) as (_ & Hasym & Htrans & _).
  destruct (operator_lt_is_strict_weak_order b b' c) as (_ & _ & _ & Hinc & _ & Hsame).
  split; [apply Htrans; reflexivity|].
  split; [apply Hasym; reflexivity|].
  split; [apply Hinc; reflexivity|].
  apply Hsame. reflexivity.
Defined.

End LightOrderTheory.

(* ------------------------------------------------------------------ *)
(** ** More properties of app.cpp *)
Module AppMoreTheory.
Import FreeRTOS light_h app_cpp Observations Runs render_host AppTheory.

Section Members.
Context {platform : Platform}.

(** *** Power down, lines 48-58 *)

(** X3: [onPowerDown] deletes the task whose handle is on record, if any,
    and then shuts the renderer down, if any; it nulls the task handle but
    not the renderer pointer.  So a second [onPowerDown] shuts the same
    renderer down again, and a later acceleration change still commands the
    renderer that was shut down. *)
Theorem onPowerDown_keeps_the_renderer_pointer (s : App) :
  trace (onPowerDown s) = trace s ++ power_down_events s
  /\ renderHostHandle (onPowerDown s) = None
  /\ renderer (onPowerDown s) = renderer s
  /\ tasks (onPowerDown s)
     = match renderHostHandle s with
       | Some h => List.remove Nat.eq_dec h (tasks s)
       | None => tasks s
       end
  /\ trace (onPowerDown (onPowerDown s))
     = trace (onPowerDown s)
       ++ match renderer s with
          | Some r => [RendererShutdown r]
          | None => []
          end
  /\ (forall r a,
        renderer s = Some r ->
        onAccelerationStateChanged a (onPowerDown s)
        = emit_all (brake_channel r s (acceleration_command a)) (onPowerDown s)).
Proof.
  assert (Hr : renderer (onPowerDown s) = renderer s).
  { unfold onPowerDown. destruct s as [? ? ? ? ? ? [r|] [h|] ? ? ? ? ?]; reflexivity. }
  assert (Hh : renderHostHandle (onPowerDown s) = None).
  { unfold onPowerDown. destruct s as [? ? ? ? ? ? [r|] [h|] ? ? ? ? ?]; reflexivity. }
  split; [|split; [exact Hh|split; [exact Hr|split; [|split]]]].
  - unfold onPowerDown, power_down_events.
    destruct s as [? ? ? ? ? ? [r|] [h|] ? ? ? ? ?]; simpl;
      rewrite <- ?app_assoc, ?app_nil_r; reflexivity.
  - unfold onPowerDown. destruct s as [? ? ? ? ? ? [r|] [h|] ? ? ? ? ?]; reflexivity.
  - unfold onPowerDown at 1. rewrite Hh. cbv zeta iota beta. rewrite Hr.
    destruct (renderer s); [reflexivity | now rewrite app_nil_r].
  - intros r a E.
    rewrite (onAccelerationStateChanged_events a (onPowerDown s) r) by (now rewrite Hr).
    f_equal. unfold brake_channel. f_equal.
    unfold onPowerDown. destruct s as [? ? ? ? ? ? [r'|] [h|] ? ? ? ? ?]; reflexivity.
Qed.

(** *** The setters, lines 232-254 *)

(** X4: each of [setBrakes], [setTurnLights] and [setHeadlight] always fans
    one bundle out to the listeners, with the command in its own member and
    [NoCommand] in the other two, and changes nothing but the events; the
    command reaches a renderer queue only if there is a renderer and it has
    that queue.  Without a renderer the setters, unlike the state-change
    handlers, still notify. *)
Theorem setters_always_notify (c : LightCommand) (s : App) :
  setBrakes c s
  = emit_all (command_to (queue_of brakelightQueue s) c
              ++ fanout (renderListeners s)
                   (mkLightCommands (lightMode s) c NoCommand NoCommand)) s
  /\ setTurnLights c s
     = emit_all (command_to (queue_of turnlightQueue s) c
                 ++ fanout (renderListeners s)
                      (mkLightCommands (lightMode s) NoCommand c NoCommand)) s
  /\ setHeadlight c s
     = emit_all (command_to (queue_of headlightQueue s) c
                 ++ fanout (renderListeners s)
                      (mkLightCommands (lightMode s) NoCommand NoCommand c)) s
  /\ (renderer s = None ->
      notifications (command_to (queue_of brakelightQueue s) c
                     ++ fanout (renderListeners s)
                          (mkLightCommands (lightMode s) c NoCommand NoCommand))
      = deliveries (renderListeners s) (mkLightCommands (lightMode s) c NoCommand NoCommand)
      /\ onAccelerationStateChanged Braking s = s).
Proof.
  assert (E : forall sel, match renderer s with
                          | Some r => match sel r with
                                      | Some q => emit (CommandSend q c) s
                                      | None => s
                                      end
                          | None => s
                          end = emit_all (command_to (queue_of sel s) c) s).
  { intros sel. unfold queue_of. destruct (renderer s) as [r|]; simpl.
    - apply command_to_events.
    - now rewrite emit_all_nil. }
  split; [|split; [|split]].
  - unfold setBrakes. rewrite E, notifyLightsChanged_events, emit_all_app. reflexivity.
  - unfold setTurnLights. rewrite E, notifyLightsChanged_events, emit_all_app. reflexivity.
  - unfold setHeadlight. rewrite E, notifyLightsChanged_events, emit_all_app. reflexivity.
  - intros Hr. split.
    + rewrite notifications_app, notifications_command_to. reflexivity.
    + unfold onAccelerationStateChanged. now rewrite Hr.
Qed.

(** *** How a mode request ends, lines 178-213 *)

(** X5: [setLightMode m] returns exactly when [m] is the current mode, or
    the construction for [m] succeeds and the teardown step has a renderer to
    shut down whenever there is a task handle.  With a task handle and no
    renderer it goes through the NULL renderer, after it has deleted the
    task; with a failing construction it is left after the teardown step. *)
Theorem setLightMode_outcomes (m : LightMode) (s : App) :
  ((exists s', setLightMode m s = Returned s') <->
   (lightMode s = m
    \/ (built_for m <> None /\ (renderHostHandle s = None \/ renderer s <> None))))
  /\ (forall s', setLightMode m s = Aborted NullDereference s' <->
        (lightMode s <> m /\ renderer s = None
         /\ exists h, renderHostHandle s = Some h /\ s' = vTaskDelete h s))
  /\ (forall s', setLightMode m s = Aborted BadAlloc s' <->
        (lightMode s <> m /\ built_for m = None
         /\ (renderHostHandle s = None \/ renderer s <> None)
         /\ s' = torn_down s)).
Proof.
  destruct (LightMode_eq_dec (lightMode s) m) as [Em|Em].
  - rewrite (setLightMode_same m s Em).
    split; [split; [auto | intros _; now exists s]|].
    split; intros s'; (split; [discriminate | intros (H & _); contradiction]).
  - destruct (renderHostHandle s) as [h|] eqn:Eh; [destruct (renderer s) as [r0|] eqn:Er|].
    + rewrite (setLightMode_change m s Em) by (right; congruence).
      destruct (built_for m) as [r|] eqn:Eb.
      * split; [split; [intros _; right; split; [discriminate | right; discriminate]
                       | intros _; eexists; reflexivity]|].
        split; intros s'; (split; [discriminate|]).
        -- intros (_ & H & _). discriminate.
        -- intros (_ & H & _). discriminate.
      * split; [split; [intros (s' & H); discriminate
                       | intros [H|(H & _)]; [contradiction | congruence]]|].
        split; intros s'.
        -- split; [discriminate | intros (_ & H & _); discriminate].
        -- split.
           ++ intros H. injection H as <-.
              repeat split; auto. right; discriminate.
           ++ intros (_ & _ & _ & ->). reflexivity.
    + rewrite (setLightMode_null_renderer m s h Em Eh Er).
      split; [split; [intros (s' & H); discriminate
                     | intros [H|(_ & [H|H])]; [contradiction | discriminate | congruence]]|].
      split; intros s'.
      * split.
        -- intros H. injection H as <-. repeat split; auto. now exists h.
        -- intros (_ & _ & h' & Hh & ->). injection Hh as <-. reflexivity.
      * split; [discriminate | intros (_ & _ & [H|H] & _); [discriminate | congruence]].
    + rewrite (setLightMode_change m s Em) by (now left).
      destruct (built_for m) as [r|] eqn:Eb.
      * split; [split; [intros _; right; split; [discriminate | now left]
                       | intros _; eexists; reflexivity]|].
        split; intros s'; (split; [discriminate|]).
        -- intros (_ & _ & h & H & _). discriminate.
        -- intros (_ & H & _). discriminate.
      * split; [split; [intros (s' & H); discriminate
                       | intros [H|(H & _)]; [contradiction | congruence]]|].
        split; intros s'.
        -- split; [discriminate | intros (_ & _ & h & H & _); discriminate].
        -- split.
           ++ intros H. injection H as <-. repeat split; auto.
           ++ intros (_ & _ & _ & ->). reflexivity.
Qed.

(** X6: a mode value that [setLightMode] does not name gets the running
    renderer (and the lights are rendered once), but it is stored as the
    current mode as it is.  A request for [RunningMode] after it is therefore
    a mode change of its own: a second running renderer is built although one
    is installed. *)
Theorem unknown_mode_gets_the_running_renderer (v : N) (s : App) (r : Renderer) :
  lightMode s <> LightMode_other v ->
  renderHostHandle s = None ->
  new_RunningRenderer = Some r ->
  exists s1 s2,
    setLightMode (LightMode_other v) s = Returned s1
    /\ trace s1
       = trace s
         ++ [RendererNew r; LightsRender; TaskCreate (nextTask s)]
         ++ fanout (renderListeners s)
              (mkLightCommands (LightMode_other v) NoCommand NoCommand NoCommand)
    /\ renderer s1 = Some r
    /\ lightMode s1 = LightMode_other v
    /\ setLightMode RunningMode s1 = Returned s2
    /\ trace s2
       = trace s1
         ++ [RendererNew r; LightsRender; TaskCreate (S (nextTask s))]
         ++ fanout (renderListeners s)
              (mkLightCommands RunningMode NoCommand NoCommand NoCommand)
    /\ lightMode s2 = RunningMode.
Proof.
  intros Hm Hh Hb.
  assert (Htd : torn_down s = s) by (unfold torn_down; now rewrite Hh).
  assert (Hte : teardown_events s = []) by (unfold teardown_events; now rewrite Hh).
  set (s1 := installed (LightMode_other v) r s).
  assert (H1 : setLightMode (LightMode_other v) s = Returned s1).
  { rewrite (setLightMode_change _ s Hm) by (now left).
    unfold built_for. rewrite Hb, Htd. reflexivity. }
  assert (Hh1 : renderHostHandle s1 = None) by exact Hh.
  assert (Htd1 : torn_down s1 = s1) by (unfold torn_down; now rewrite Hh1).
  exists s1, (installed RunningMode r s1).
  split; [exact H1|]. split.
  { unfold s1. rewrite <- Htd at 1. rewrite mode_change_events, Hte. reflexivity. }
  split; [reflexivity|]. split; [reflexivity|]. split.
  { rewrite (setLightMode_change RunningMode s1) by (try discriminate; now left).
    unfold built_for. rewrite Hb, Htd1. reflexivity. }
  split; [|reflexivity].
  rewrite <- Htd1 at 1. rewrite mode_change_events.
  unfold teardown_events. rewrite Hh1. reflexivity.
Qed.

(** *** What the calls leave alone *)

Lemma process_signals_steps (s : App) :
  process_signals s = (s1 <- config_step s ;; mode_step s1).
Proof.
  unfold process_signals, config_step, mode_step, bind,
    uxQueueMessagesWaiting, xQueueReceive, popped.
  destruct (configUpdatedQueue s) as [cc [|[|] cl]]; simpl.
  - destruct (lightModeQueue s) as [mc [|m ml]]; reflexivity.
  - destruct (onConfigUpdated _) as [s1|]; [|reflexivity].
    destruct (lightModeQueue s1) as [mc [|m ml]]; reflexivity.
  - destruct (lightModeQueue s) as [mc [|m ml]]; reflexivity.
Qed.

(** [setLightMode] touches the renderer, the task, the mode and the events only. *)
Lemma setLightMode_keeps (m : LightMode) (s : App) :
  let s' := outcome_state (setLightMode m s) in
  configUpdatedQueue s' = configUpdatedQueue s
  /\ lightModeQueue s' = lightModeQueue s
  /\ vehicleQueue s' = vehicleQueue s
  /\ vehicleState s' = vehicleState s
  /\ same_setup s s'.
Proof.
  cbv zeta. unfold same_setup.
  destruct (LightMode_eq_dec (lightMode s) m) as [Em|Em].
  - rewrite (setLightMode_same m s Em). simpl. repeat split.
  - destruct (renderHostHandle s) as [h|] eqn:Eh; [destruct (renderer s) as [r0|] eqn:Er|].
    + rewrite (setLightMode_change m s Em) by (right; congruence).
      unfold torn_down. rewrite Eh, Er. destruct (built_for m); simpl; repeat split.
    + rewrite (setLightMode_null_renderer m s h Em Eh Er). simpl. repeat split.
    + rewrite (setLightMode_change m s Em) by (now left).
      unfold torn_down. rewrite Eh. destruct (built_for m); simpl; repeat split.
Qed.

(** Without a task handle on record, [setLightMode] records none and deletes
    no task; it adds one when it returns from a mode change. *)
Lemma setLightMode_tasks (m : LightMode) (s : App) :
  renderHostHandle s = None ->
  let o := setLightMode m s in
  renderHostHandle (outcome_state o) = None
  /\ tasks (outcome_state o)
     = tasks s
       ++ match o with
          | Returned _ => if LightMode_eq_dec (lightMode s) m then [] else [nextTask s]
          | Aborted _ _ => []
          end
  /\ nextTask (outcome_state o) = List.length (tasks (outcome_state o)) - List.length (tasks s) + nextTask s.
Proof.
  intros Hh. cbv zeta.
  destruct (LightMode_eq_dec (lightMode s) m) as [Em|Em].
  - rewrite (setLightMode_same m s Em). simpl. rewrite app_nil_r.
    split; [exact Hh|]. split; [reflexivity|]. lia.
  - rewrite (setLightMode_change m s Em) by (now left).
    assert (Htd : torn_down s = s) by (unfold torn_down; now rewrite Hh).
    rewrite Htd. destruct (built_for m); simpl.
    + split; [exact Hh|]. split; [reflexivity|]. rewrite length_app. simpl. lia.
    + rewrite app_nil_r. split; [exact Hh|]. split; [reflexivity|]. lia.
Qed.

Lemma same_setup_refl (s : App) : same_setup s s.
Proof. unfold same_setup. repeat split. Qed.

Lemma same_setup_trans (a b c : App) :
  same_setup a b -> same_setup b c -> same_setup a c.
Proof. unfold same_setup. intuition congruence. Qed.

(** The second half of a cycle touches the vehicle queue, the snapshot and
    the events only, however it ends. *)
Lemma process_vehicle_keeps (s : App) :
  let s' := outcome_state (process_vehicle s) in
  same_setup s s'
  /\ configUpdatedQueue s' = configUpdatedQueue s
  /\ lightModeQueue s' = lightModeQueue s
  /\ items (vehicleQueue s') = []
  /\ renderHostHandle s' = renderHostHandle s
  /\ tasks s' = tasks s
  /\ lightMode s' = lightMode s
  /\ renderer s' = renderer s.
Proof.
  cbv zeta. destruct (vehicleQueue s) as [cap l] eqn:Eq.
  destruct l as [|x l0].
  - assert (Hi : items (vehicleQueue s) = []) by now rewrite Eq.
    rewrite (process_vehicle_idle s Hi). unfold outcome_state. rewrite outcome_of_ended.
    unfold same_setup. simpl. rewrite Eq. repeat split.
  - destruct (@exists_last _ (x :: l0)) as (l' & z & E); [discriminate|].
    rewrite E in Eq.
    rewrite (process_vehicle_newest s cap l' z Eq). unfold outcome_state.
    rewrite outcome_of_ended. unfold same_setup, cycle_result. simpl.
    rewrite Eq. repeat split.
Qed.

Lemma popped_items {A : Type} (q : Queue A) : items (popped q) = tl (items q).
Proof. reflexivity. Qed.

Lemma config_step_keeps (s : App) :
  let s1 := outcome_state (config_step s) in
  items (configUpdatedQueue s1) = tl (items (configUpdatedQueue s))
  /\ lightModeQueue s1 = lightModeQueue s
  /\ vehicleQueue s1 = vehicleQueue s
  /\ vehicleState s1 = vehicleState s
  /\ same_setup s s1.
Proof.
  cbv zeta. unfold config_step.
  destruct (items (configUpdatedQueue s)) as [|valid rest] eqn:Ei.
  - simpl. rewrite Ei. repeat split.
  - set (s0 := set_configUpdatedQueue (popped (configUpdatedQueue s)) s).
    assert (H0 : same_setup s s0) by (unfold same_setup; repeat split).
    destruct valid.
    + unfold onConfigUpdated.
      destruct (setLightMode_keeps (ampConfig_prefs_renderer s0) s0) as (Hc & Hm & Hv & Hs & Hk).
      rewrite Hc, Hm, Hv, Hs. simpl. rewrite Ei.
      do 4 (split; [reflexivity|]). exact (same_setup_trans _ _ _ H0 Hk).
    + simpl. rewrite Ei. repeat split.
Qed.

Lemma mode_step_keeps (s : App) :
  let s1 := outcome_state (mode_step s) in
  configUpdatedQueue s1 = configUpdatedQueue s
  /\ items (lightModeQueue s1) = tl (items (lightModeQueue s))
  /\ vehicleQueue s1 = vehicleQueue s
  /\ vehicleState s1 = vehicleState s
  /\ same_setup s s1.
Proof.
  cbv zeta. unfold mode_step.
  destruct (items (lightModeQueue s)) as [|m rest] eqn:Ei.
  - simpl. rewrite Ei. repeat split.
  - set (s0 := set_lightModeQueue (popped (lightModeQueue s)) s).
    assert (H0 : same_setup s s0) by (unfold same_setup; repeat split).
    destruct (setLightMode_keeps m s0) as (Hc & Hm & Hv & Hs & Hk).
    rewrite Hc, Hm, Hv, Hs. simpl. rewrite Ei.
    do 4 (split; [reflexivity|]). exact (same_setup_trans _ _ _ H0 Hk).
Qed.

Lemma config_step_tasks (s : App) :
  renderHostHandle s = None ->
  renderHostHandle (outcome_state (config_step s)) = None
  /\ exists new, tasks (outcome_state (config_step s)) = tasks s ++ new.
Proof.
  intros Hh. unfold config_step.
  destruct (items (configUpdatedQueue s)) as [|[|] rest].
  - split; [exact Hh | exists []; now rewrite app_nil_r].
  - unfold onConfigUpdated.
    set (s0 := set_configUpdatedQueue (popped (configUpdatedQueue s)) s).
    destruct (setLightMode_tasks (ampConfig_prefs_renderer s0) s0 Hh) as (H1 & H2 & _).
    split; [exact H1 | eexists; exact H2].
  - split; [exact Hh | exists []; simpl; now rewrite app_nil_r].
Qed.

Lemma mode_step_tasks (s : App) :
  renderHostHandle s = None ->
  renderHostHandle (outcome_state (mode_step s)) = None
  /\ exists new, tasks (outcome_state (mode_step s)) = tasks s ++ new.
Proof.
  intros Hh. unfold mode_step.
  destruct (items (lightModeQueue s)) as [|m rest].
  - split; [exact Hh | exists []; now rewrite app_nil_r].
  - set (s0 := set_lightModeQueue (popped (lightModeQueue s)) s).
    destruct (setLightMode_tasks m s0 Hh) as (H1 & H2 & _).
    split; [exact H1 | eexists; exact H2].
Qed.

(** How a cycle ends, in terms of its steps. *)
Lemma process_steps (s : App) :
  process s
  = (s1 <- config_step s ;; s2 <- mode_step s1 ;; process_vehicle s2).
Proof.
  rewrite process_split, process_signals_steps.
  destruct (config_step s); reflexivity.
Qed.

(** X7: a cycle leaves the listeners, the configured renderer and the sizes
    of the three queues alone, whatever is waiting and whether it returns or
    not; and when no task handle is on record at its start, none is on record
    at its end and every task that was alive is still alive. *)
Theorem cycle_keeps_setup_and_tasks (s : App) :
  same_setup s (outcome_state (process s))
  /\ (renderHostHandle s = None ->
      renderHostHandle (outcome_state (process s)) = None
      /\ exists new, tasks (outcome_state (process s)) = tasks s ++ new).
Proof.
  rewrite process_steps.
  destruct (config_step_keeps s) as (_ & _ & _ & _ & K1).
  pose proof (config_step_tasks s) as T1.
  destruct (config_step s) as [s1|why s1]; simpl in *; [|split; assumption].
  destruct (mode_step_keeps s1) as (_ & _ & _ & _ & K2).
  pose proof (mode_step_tasks s1) as T2.
  destruct (mode_step s1) as [s2|why s2]; simpl in *.
  - destruct (process_vehicle_keeps s2) as (K3 & _ & _ & _ & Hh & Ht & _).
    split; [exact (same_setup_trans _ _ _ K1 (same_setup_trans _ _ _ K2 K3))|].
    intros H0. destruct (T1 H0) as (H1 & n1 & E1). destruct (T2 H1) as (H2 & n2 & E2).
    rewrite Hh, Ht. split; [exact H2|].
    exists (n1 ++ n2). now rewrite E2, E1, app_assoc.
  - split; [exact (same_setup_trans _ _ _ K1 K2)|].
    intros H0. destruct (T1 H0) as (H1 & n1 & E1). destruct (T2 H1) as (H2 & n2 & E2).
    split; [exact H2|]. exists (n1 ++ n2). now rewrite E2, E1, app_assoc.
Qed.

(** X8: a cycle that returns has taken exactly the oldest message, if any,
    off the configuration queue and off the mode queue, and all messages off
    the vehicle queue. *)
Theorem cycle_consumes_one_signal_each (s s' : App) :
  process s = Returned s' ->
  items (configUpdatedQueue s') = tl (items (configUpdatedQueue s))
  /\ items (lightModeQueue s') = tl (items (lightModeQueue s))
  /\ items (vehicleQueue s') = [].
Proof.
  rewrite process_steps. intros H.
  destruct (config_step_keeps s) as (Hc1 & Hm1 & _).
  destruct (config_step s) as [s1|why s1]; simpl in *; [|discriminate].
  destruct (mode_step_keeps s1) as (Hc2 & Hm2 & _).
  destruct (mode_step s1) as [s2|why s2]; simpl in *; [|discriminate].
  destruct (process_vehicle_keeps s2) as (_ & Hc3 & Hm3 & Hv3 & _).
  rewrite H in Hc3, Hm3, Hv3. simpl in Hc3, Hm3, Hv3.
  rewrite Hc3, Hm3, Hc2, Hm2, Hc1, Hm1. auto.
Qed.

(** X9: with nothing waiting a cycle only polls the services.  In a build
    without [BLE_ENABLED] it leaves the object as it is; in a build with
    [BLE_ENABLED] it calls through the three service pointers without a test,
    so before [onPowerUp] has set them it goes through NULL at the first. *)
Theorem idle_cycle_only_polls (s : App) :
  no_signal_pending s ->
  items (vehicleQueue s) = [] ->
  process s = pollServices s
  /\ (BLE_ENABLED = false -> process s = Returned s)
  /\ (BLE_ENABLED = true -> vehicleService s = false ->
      process s = Aborted NullDereference s)
  /\ (BLE_ENABLED = true ->
      vehicleService s = true -> batteryService s = true -> updateService s = true ->
      process s
      = Returned (emit_all [VehicleServiceProcess; BatteryServiceProcess;
                            UpdateServiceProcess] s)).
Proof.
  intros Hn Hv. rewrite (process_idle s Hn Hv).
  change (service_events None s) with (polls_done s).
  rewrite <- pollServices_ended.
  split; [reflexivity|]. split; [|split].
  - intros Hb. unfold pollServices. now rewrite Hb.
  - intros Hb Hs. unfold pollServices. now rewrite Hb, Hs.
  - intros Hb H1 H2 H3. rewrite pollServices_ended.
    unfold ended, services_ok, polls_done. now rewrite Hb, H1, H2, H3.
Qed.

(** X10: a configuration message is taken off its queue whatever it says.  If
    it says [false] nothing else happens before the service polls, even when
    the configured renderer differs from the current mode; if it says [true]
    the cycle requests the configured renderer and then polls the services. *)
Theorem config_update_is_applied_only_if_valid
    (s : App) (cap : nat) (valid : bool) (rest : list bool) :
  configUpdatedQueue s = mkQueue cap (valid :: rest) ->
  items (lightModeQueue s) = [] ->
  items (vehicleQueue s) = [] ->
  process s
  = if valid
    then s1 <- setLightMode (ampConfig_prefs_renderer s)
                 (set_configUpdatedQueue (mkQueue cap rest) s) ;;
         pollServices s1
    else pollServices (set_configUpdatedQueue (mkQueue cap rest) s).
Proof.
  intros Hc Hm Hv. rewrite process_steps. unfold config_step. rewrite Hc.
  unfold popped. cbn [items capacity tl].
  set (s0 := set_configUpdatedQueue (mkQueue cap rest) s).
  assert (Hidle : forall s1, items (lightModeQueue s1) = [] -> items (vehicleQueue s1) = [] ->
            (s2 <- mode_step s1 ;; process_vehicle s2) = pollServices s1).
  { intros s1 H1 H2. unfold mode_step. rewrite H1. simpl.
    rewrite (process_vehicle_idle s1 H2). symmetry. apply pollServices_ended. }
  destruct valid.
  - unfold onConfigUpdated. change (ampConfig_prefs_renderer s0) with (ampConfig_prefs_renderer s).
    destruct (setLightMode_keeps (ampConfig_prefs_renderer s) s0) as (_ & Hm1 & Hv1 & _).
    destruct (setLightMode (ampConfig_prefs_renderer s) s0) as [s1|why s1]; simpl in *;
      [|reflexivity].
    apply Hidle; [now rewrite Hm1 | now rewrite Hv1].
  - simpl. apply Hidle; assumption.
Qed.

(** *** A mode request and a vehicle state in one cycle *)

Lemma command_sent_to (qo : option QueueHandle) (c c' : LightCommand) (q : QueueHandle) :
  In (CommandSend q c') (command_to qo c) -> qo = Some q.
Proof. destruct qo as [h|]; simpl; [intros [H|[]]; now injection H as -> | contradiction]. Qed.

Lemma no_command_in_fanout (ls : list RenderListener) (b : LightCommands)
    (q : QueueHandle) (c : LightCommand) :
  ~ In (CommandSend q c) (fanout ls b).
Proof. intros H. apply in_fanout in H. destruct H as (q' & H). discriminate H. Qed.

(** The commands of a state change go to queues of the installed renderer,
    and its bundles carry the current mode. *)
Lemma state_change_goes_to_renderer (z : VehicleState) (s : App) (r : Renderer) :
  renderer s = Some r ->
  (forall q c, In (CommandSend q c) (state_change_events z s) ->
     In (Some q) [brakelightQueue r; turnlightQueue r; headlightQueue r])
  /\ (forall q b, In (ListenerSend q b) (state_change_events z s) -> mode b = lightMode s).
Proof.
  intros Hr. unfold state_change_events. rewrite Hr.
  assert (Hb : forall x q c, In (CommandSend q c) (brake_channel r s x) ->
                 brakelightQueue r = Some q).
  { intros x q c H. unfold brake_channel in H. apply in_app_iff in H.
    destruct H as [H|H]; [now apply command_sent_to in H | now apply no_command_in_fanout in H]. }
  assert (Ht : forall x q c, In (CommandSend q c) (turn_channel r s x) ->
                 turnlightQueue r = Some q).
  { intros x q c H. unfold turn_channel in H. apply in_app_iff in H.
    destruct H as [H|H]; [now apply command_sent_to in H | now apply no_command_in_fanout in H]. }
  assert (Hh : forall x q c, In (CommandSend q c) (headlight_channel r s x) ->
                 headlightQueue r = Some q).
  { intros x q c H. unfold headlight_channel in H. apply in_app_iff in H.
    destruct H as [H|H]; [now apply command_sent_to in H | now apply no_command_in_fanout in H]. }
  split.
  - intros q c H.
    destruct (AccelerationState_eq_dec _ _), (TurnState_eq_dec _ _), (Orientation_eq_dec _ _);
      rewrite ?in_app_iff in H; simpl in H;
      repeat destruct H as [H|H]; try contradiction;
      first [ apply Hb in H; rewrite H; simpl; now auto
            | apply Ht in H; rewrite H; simpl; now auto
            | apply Hh in H; rewrite H; simpl; now auto ].
  - intros q b H.
    destruct (AccelerationState_eq_dec _ _), (TurnState_eq_dec _ _), (Orientation_eq_dec _ _);
      rewrite ?in_app_iff in H; simpl in H;
      repeat destruct H as [H|H]; try contradiction;
      first [ apply bundle_of_brake_channel in H
            | apply bundle_of_turn_channel in H
            | apply bundle_of_headlight_channel in H ];
      now subst b.
Qed.

Lemma service_events_are_neither (o : option VehicleState) (s : App) (e : Event) :
  In e (service_events o s) ->
  (forall q c, e <> CommandSend q c) /\ (forall q b, e <> ListenerSend q b).
Proof.
  unfold service_events, polls_done. rewrite in_app_iff.
  destruct o; destruct BLE_ENABLED; simpl;
    destruct (vehicleService s), (batteryService s), (updateService s); simpl;
    intros H; repeat destruct H as [H|H]; try contradiction; subst e;
    split; intros; discriminate.
Qed.

(** X11: when a mode request and vehicle states wait in the same cycle, the
    mode change comes first: the renderer for the requested mode is built and
    its task created, and only then is the newest vehicle state compared with
    the snapshot.  Every command of that state change goes to a queue of the
    new renderer and every bundle carries the new mode.  The cycle then ends
    as its service polls do: it returns if the build has no wireless services
    or the three service pointers are set, and goes through NULL otherwise. *)
Theorem mode_request_is_served_before_vehicle_state
    (s : App) (m : LightMode) (rest : list LightMode) (capm capv : nat)
    (l : list VehicleState) (z : VehicleState) (r : Renderer) :
  items (configUpdatedQueue s) = [] ->
  lightModeQueue s = mkQueue capm (m :: rest) ->
  vehicleQueue s = mkQueue capv (l ++ [z]) ->
  lightMode s <> m ->
  renderHostHandle s = None ->
  built_for m = Some r ->
  exists s' es,
    process s = ended s s'
    /\ (services_ok s = true -> process s = Returned s')
    /\ trace s'
       = trace s
         ++ construction_events m r
         ++ [TaskCreate (nextTask s)]
         ++ fanout (renderListeners s) (mkLightCommands m NoCommand NoCommand NoCommand)
         ++ es
    /\ es = state_change_events z (outcome_state (mode_step s))
            ++ service_events (Some z) (outcome_state (mode_step s))
    /\ (forall q c, In (CommandSend q c) es ->
          In (Some q) [brakelightQueue r; turnlightQueue r; headlightQueue r])
    /\ (forall q b, In (ListenerSend q b) es -> mode b = m)
    /\ lightMode s' = m
    /\ renderer s' = Some r
    /\ vehicleState s' = z
    /\ items (lightModeQueue s') = rest.
Proof.
  intros Hc Hm Hv Hne Hh Hb.
  set (s0 := set_lightModeQueue (popped (lightModeQueue s)) s).
  assert (Htd : torn_down s0 = s0)
    by (unfold torn_down; now rewrite (Hh : renderHostHandle s0 = None)).
  assert (Hstep : mode_step s = Returned (installed m r s0)).
  { unfold mode_step. rewrite Hm. cbn [items]. rewrite <- Hm. fold s0.
    rewrite (setLightMode_change m s0 Hne) by (now left). now rewrite Hb, Htd. }
  set (s2 := installed m r s0) in *.
  assert (Hv2 : vehicleQueue s2 = mkQueue capv (l ++ [z])) by exact Hv.
  assert (Hr2 : renderer s2 = Some r) by reflexivity.
  assert (Ht2 : trace s2
                = trace s ++ construction_events m r ++ [TaskCreate (nextTask s)]
                  ++ fanout (renderListeners s)
                       (mkLightCommands m NoCommand NoCommand NoCommand)).
  { assert (Hte : teardown_events s0 = [])
      by (unfold teardown_events; now rewrite (Hh : renderHostHandle s0 = None)).
    unfold s2. rewrite <- Htd at 1. now rewrite mode_change_events, Hte. }
  rewrite Hstep. cbn [outcome_state].
  exists (cycle_result capv z (state_change_events z s2 ++ service_events (Some z) s2) s2),
         (state_change_events z s2 ++ service_events (Some z) s2).
  assert (Hp : process s
               = ended s (cycle_result capv z
                            (state_change_events z s2 ++ service_events (Some z) s2) s2)).
  { rewrite process_steps. unfold config_step. rewrite Hc. cbn [bind].
    rewrite Hstep. cbn [bind]. now rewrite (process_vehicle_newest s2 capv l z Hv2). }
  split; [exact Hp|].
  split; [intros Hok; rewrite Hp; now apply ended_ok|].
  split.
  { unfold cycle_result. cbn [trace set_vehicleState set_vehicleQueue emit_all set_trace].
    rewrite Ht2. now rewrite <- !app_assoc. }
  split; [reflexivity|].
  destruct (state_change_goes_to_renderer z s2 r Hr2) as (Hq & Hmode).
  split.
  { intros q c H. apply in_app_iff in H. destruct H as [H|H]; [now apply Hq with c|].
    apply service_events_are_neither in H. destruct H as (H & _). now elim (H q c). }
  split.
  { intros q b H. apply in_app_iff in H. destruct H as [H|H]; [now apply Hmode with q|].
    apply service_events_are_neither in H. destruct H as (_ & H). now elim (H q b). }
  split; [reflexivity|]. split; [reflexivity|]. split; [reflexivity|].
  unfold cycle_result, s2, s0. simpl. now rewrite Hm.
Qed.

(** X12: when a valid configuration update and a request for a third mode
    wait in the same cycle, the configured renderer is built and its task
    created, and at once the requested renderer is built and a second task
    created; the requested mode is the one that stays.  No task handle being
    on record, the configured renderer is not shut down and its task is not
    deleted.  The cycle then ends as its service polls do. *)
Theorem config_update_then_mode_request
    (s : App) (capc capm : nat) (restc : list bool)
    (m : LightMode) (restm : list LightMode) (rc rm : Renderer) :
  configUpdatedQueue s = mkQueue capc (true :: restc) ->
  lightModeQueue s = mkQueue capm (m :: restm) ->
  items (vehicleQueue s) = [] ->
  renderHostHandle s = None ->
  lightMode s <> ampConfig_prefs_renderer s ->
  ampConfig_prefs_renderer s <> m ->
  built_for (ampConfig_prefs_renderer s) = Some rc ->
  built_for m = Some rm ->
  exists s' es,
    process s = ended s s'
    /\ (services_ok s = true -> process s = Returned s')
    /\ trace s' = trace s ++ es
    /\ renderers_built es = [rc; rm]
    /\ renderers_shut_down es = []
    /\ tasks_created es = [nextTask s; S (nextTask s)]
    /\ tasks_deleted es = []
    /\ tasks s' = tasks s ++ [nextTask s; S (nextTask s)]
    /\ lightMode s' = m
    /\ renderer s' = Some rm.
Proof.
  intros Hc Hm Hv Hh Hn1 Hn2 Hb1 Hb2.
  set (c := ampConfig_prefs_renderer s) in *.
  set (s0 := set_configUpdatedQueue (popped (configUpdatedQueue s)) s).
  assert (Htd0 : torn_down s0 = s0)
    by (unfold torn_down; now rewrite (Hh : renderHostHandle s0 = None)).
  assert (H1 : config_step s = Returned (installed c rc s0)).
  { unfold config_step. rewrite Hc. cbn [items]. rewrite <- Hc. fold s0.
    unfold onConfigUpdated. change (ampConfig_prefs_renderer s0) with c.
    rewrite (setLightMode_change c s0 Hn1) by (now left). now rewrite Hb1, Htd0. }
  set (s1 := installed c rc s0) in *.
  set (s1' := set_lightModeQueue (popped (lightModeQueue s1)) s1).
  assert (Htd1 : torn_down s1' = s1')
    by (unfold torn_down; now rewrite (Hh : renderHostHandle s1' = None)).
  assert (H2 : mode_step s1 = Returned (installed m rm s1')).
  { unfold mode_step. change (lightModeQueue s1) with (lightModeQueue s). rewrite Hm.
    cbn [items]. rewrite <- Hm. fold s1'.
    rewrite (setLightMode_change m s1') by (try exact Hn2; now left).
    now rewrite Hb2, Htd1. }
  set (s2 := installed m rm s1') in *.
  assert (Hv2 : items (vehicleQueue s2) = []) by exact Hv.
  set (es := construction_events c rc ++ [TaskCreate (nextTask s)]
             ++ fanout (renderListeners s) (mkLightCommands c NoCommand NoCommand NoCommand)
             ++ construction_events m rm ++ [TaskCreate (S (nextTask s))]
             ++ fanout (renderListeners s) (mkLightCommands m NoCommand NoCommand NoCommand)
             ++ service_events None s2).
  exists (emit_all (service_events None s2) s2), es.
  assert (Hp : process s = ended s (emit_all (service_events None s2) s2)).
  { rewrite process_steps, H1. cbn [bind]. rewrite H2. cbn [bind].
    now rewrite (process_vehicle_idle s2 Hv2). }
  split; [exact Hp|].
  split; [intros Hok; rewrite Hp; now apply ended_ok|].
  assert (Hobs : forall (A : Type) (f : Event -> list A),
            (forall q b, f (ListenerSend q b) = []) ->
            f VehicleServiceProcess = [] /\ f BatteryServiceProcess = []
            /\ f UpdateServiceProcess = [] ->
            flat_map f es
            = flat_map f (construction_events c rc) ++ f (TaskCreate (nextTask s))
              ++ flat_map f (construction_events m rm) ++ f (TaskCreate (S (nextTask s)))).
  { intros A f Hf (Hp1 & Hp2 & Hp3). unfold es. rewrite !flat_map_app.
    rewrite !fanout_unobserved by (intros; apply Hf).
    replace (flat_map f (service_events None s2)) with (@nil A).
    - simpl. now rewrite !app_nil_r.
    - unfold service_events, polls_done. cbn [app].
      destruct BLE_ENABLED; [|reflexivity].
      destruct (vehicleService s2); [|reflexivity].
      destruct (batteryService s2); [|simpl; now rewrite Hp1].
      destruct (updateService s2); simpl; now rewrite Hp1, Hp2, ?Hp3. }
  split.
  { assert (Hte0 : teardown_events s0 = [])
      by (unfold teardown_events; now rewrite (Hh : renderHostHandle s0 = None)).
    assert (Hte1 : teardown_events s1' = [])
      by (unfold teardown_events; now rewrite (Hh : renderHostHandle s1' = None)).
    rewrite trace_emit_all. unfold s2.
    rewrite <- Htd1 at 1. rewrite mode_change_events, Hte1.
    change (trace s1') with (trace s1). unfold s1.
    rewrite <- Htd0 at 1. rewrite mode_change_events, Hte0.
    unfold es. simpl. now rewrite <- !app_assoc. }
  split; [unfold renderers_built; rewrite Hobs by (repeat split); now destruct c, m|].
  split; [unfold renderers_shut_down; rewrite Hobs by (repeat split); now destruct c, m|].
  split; [unfold tasks_created; rewrite Hobs by (repeat split); now destruct c, m|].
  split; [unfold tasks_deleted; rewrite Hobs by (repeat split); now destruct c, m|].
  split; [|split; reflexivity].
  simpl. now rewrite <- app_assoc.
Qed.

(** *** Many mode requests *)

Lemma last_cons {A : Type} (l : list A) :
  forall x d : A, last (x :: l) d = last l x.
Proof.
  induction l as [|a l IH]; intros x d; [reflexivity|].
  change (last (x :: a :: l) d) with (last (a :: l) d).
  now rewrite (IH a d), (IH a x).
Qed.

(** X13: over any sequence of mode requests whose constructions succeed,
    made from a state without a task handle on record, every request for
    another mode than the current one builds a renderer and creates a task,
    and none shuts a renderer down or deletes a task: the tasks alive grow by
    one with each mode change, and no handle is ever on record. *)
Theorem every_mode_change_adds_a_task (ms : list LightMode) :
  forall s : App,
  renderHostHandle s = None ->
  (forall m, In m ms -> built_for m <> None) ->
  exists s' es,
    setLightModes ms s = Returned s'
    /\ trace s' = trace s ++ es
    /\ List.length (renderers_built es) = mode_changes (lightMode s) ms
    /\ renderers_shut_down es = []
    /\ tasks_deleted es = []
    /\ tasks s' = tasks s ++ seq (nextTask s) (mode_changes (lightMode s) ms)
    /\ nextTask s' = nextTask s + mode_changes (lightMode s) ms
    /\ renderHostHandle s' = None
    /\ lightMode s' = last ms (lightMode s).
Proof.
  induction ms as [|m ms IH]; intros s Hh Hb.
  - exists s, []. simpl. rewrite !app_nil_r, Nat.add_0_r. repeat split; auto.
  - assert (Hb' : forall m', In m' ms -> built_for m' <> None)
      by (intros m' H; apply Hb; now right).
    assert (Hlast : forall d, last (m :: ms) d = last ms m) by apply last_cons.
    simpl setLightModes. simpl mode_changes.
    destruct (LightMode_eq_dec (lightMode s) m) as [E|E].
    + rewrite (setLightMode_same m s E). cbn [bind].
      destruct (IH s Hh Hb') as (s' & es & H1 & H2 & H3 & H4 & H5 & H6 & H7 & H8 & H9).
      exists s', es. rewrite E in *. rewrite Hlast.
      repeat split; auto.
    + destruct (built_for m) as [r|] eqn:Eb; [|exfalso; apply (Hb m); [now left | exact Eb]].
      assert (Htd : torn_down s = s) by (unfold torn_down; now rewrite Hh).
      assert (Hte : teardown_events s = []) by (unfold teardown_events; now rewrite Hh).
      rewrite (setLightMode_change m s E) by (now left). rewrite Eb, Htd. cbn [bind].
      set (s1 := installed m r s).
      assert (Ht1 : trace s1
                    = trace s ++ construction_events m r ++ [TaskCreate (nextTask s)]
                      ++ fanout (renderListeners s)
                           (mkLightCommands m NoCommand NoCommand NoCommand)).
      { unfold s1. rewrite <- Htd at 1. now rewrite mode_change_events, Hte. }
      destruct (IH s1 Hh Hb') as (s' & es & H1 & H2 & H3 & H4 & H5 & H6 & H7 & H8 & H9).
      exists s', ((construction_events m r ++ [TaskCreate (nextTask s)]
                   ++ fanout (renderListeners s)
                        (mkLightCommands m NoCommand NoCommand NoCommand)) ++ es).
      change (lightMode s1) with m in *.
      change (nextTask s1) with (S (nextTask s)) in *.
      change (tasks s1) with (tasks s ++ [nextTask s]) in *.
      split; [exact H1|].
      split; [rewrite H2, Ht1; now rewrite <- !app_assoc|].
      split.
      { unfold renderers_built in *. rewrite !flat_map_app, !length_app, H3.
        rewrite fanout_unobserved by reflexivity. destruct m; reflexivity. }
      split.
      { unfold renderers_shut_down in *. rewrite !flat_map_app, H4.
        rewrite fanout_unobserved by reflexivity. destruct m; reflexivity. }
      split.
      { unfold tasks_deleted in *. rewrite !flat_map_app, H5.
        rewrite fanout_unobserved by reflexivity. destruct m; reflexivity. }
      split; [rewrite H6; simpl; now rewrite <- app_assoc|].
      split; [rewrite H7; simpl; lia|].
      split; [exact H8|]. now rewrite Hlast.
Qed.

(** *** The render host task, lines 215-230 *)

(** X14: the render host task resets the motion detection once, before
    anything else, and then takes its turns in the order of the views it has
    of the object: a further turn adds, after all that went before, one call
    of [process()] on the renderer installed in the view of that turn, and no
    call when none is installed, and then a wait of 50 ms.  So the renderers
    it has processed are, in order, the renderers installed at its turns; a
    renderer it processes was installed when it did; while no renderer is
    installed it only waits; and after [n] turns it has waited [50 * n] ms. *)
Theorem render_host_processes_the_installed_renderer (seen : list App) :
  startRenderHost seen = MotionReset :: tl (startRenderHost seen)
  /\ ~ In MotionReset (tl (startRenderHost seen))
  /\ startRenderHost [] = [MotionReset]
  /\ (forall app,
        startRenderHost (seen ++ [app])
        = startRenderHost seen
          ++ match renderer app with
             | Some r => [RendererProcess r; Delay 50]
             | None => [Delay 50]
             end)
  /\ renderers_processed (startRenderHost seen) = renderers_installed seen
  /\ (forall r, In (RendererProcess r) (startRenderHost seen) ->
        exists app, In app seen /\ renderer app = Some r)
  /\ (Forall (fun app => renderer app = None) seen ->
      startRenderHost seen = MotionReset :: repeat (Delay 50) (List.length seen))
  /\ delayed (startRenderHost seen) = 50 * List.length seen.
Proof.
  unfold startRenderHost. cbn [tl].
  split; [reflexivity|]. split; [|split; [reflexivity|split; [|split; [|split; [|split]]]]].
  - rewrite in_flat_map. intros (app & _ & H). unfold renderHost_turn in H.
    destruct (renderer app); simpl in H; intuition discriminate.
  - intros app. rewrite flat_map_app. simpl. rewrite app_nil_r.
    unfold renderHost_turn at 2. now destruct (renderer app).
  - unfold renderers_processed, renderers_installed. simpl.
    induction seen as [|app l IH]; [reflexivity|].
    simpl. rewrite flat_map_app, IH. unfold renderHost_turn.
    now destruct (renderer app).
  - intros r [H|H]; [discriminate|]. apply in_flat_map in H.
    destruct H as (app & Hin & H). exists app. split; [exact Hin|].
    unfold renderHost_turn in H. destruct (renderer app) as [r'|]; simpl in H.
    + destruct H as [H|[H|[]]]; [now injection H as -> | discriminate].
    + destruct H as [H|[]]; discriminate.
  - intros Hall. f_equal. induction Hall as [|app l Hn _ IH]; [reflexivity|].
    simpl. unfold renderHost_turn at 1. rewrite Hn. simpl. now rewrite IH.
  - unfold delayed. simpl. induction seen as [|app l IH]; [reflexivity|].
    simpl. rewrite map_app, list_sum_app, IH. unfold renderHost_turn.
    destruct (renderer app); simpl; lia.
Qed.

(** X15: a power down from a state without a task handle on record (the
    state every mode change leaves) shuts the renderer down but deletes no
    task: a render host task that was alive is still alive, and its next turn
    calls [process()] on the renderer that was shut down. *)
Theorem render_host_outlives_power_down (s : App) (r : Renderer) (t : TaskHandle) :
  renderHostHandle s = None ->
  renderer s = Some r ->
  In t (tasks s) ->
  trace (onPowerDown s) = trace s ++ [RendererShutdown r]
  /\ In t (tasks (onPowerDown s))
  /\ renderHost_turn (onPowerDown s) = [RendererProcess r; Delay 50].
Proof.
  intros Hh Hr Ht. unfold renderHost_turn, onPowerDown.
  rewrite Hh. cbv zeta iota beta. rewrite Hr.
  change (renderer (emit (RendererShutdown r) s)) with (renderer s). rewrite Hr.
  repeat split. exact Ht.
Qed.

(** X16: a mode change made without a task handle on record leaves the old
    render host task alive beside the new one, and from then on a turn of
    either task calls [process()] on the new renderer: the renderer is
    processed by two tasks. *)
Theorem old_render_host_processes_the_new_renderer
    (m : LightMode) (s : App) (r : Renderer) (t : TaskHandle) :
  renderHostHandle s = None ->
  lightMode s <> m ->
  built_for m = Some r ->
  In t (tasks s) ->
  ~ In (nextTask s) (tasks s) ->
  exists s',
    setLightMode m s = Returned s'
    /\ In t (tasks s')
    /\ In (nextTask s) (tasks s')
    /\ t <> nextTask s
    /\ renderHost_turn s' = [RendererProcess r; Delay 50].
Proof.
  intros Hh Hm Hb Ht Hfresh.
  assert (Htd : torn_down s = s) by (unfold torn_down; now rewrite Hh).
  exists (installed m r s).
  split; [rewrite (setLightMode_change m s Hm) by (now left); now rewrite Hb, Htd|].
  unfold installed.
  cbn [tasks set_lightMode set_nextTask set_tasks set_renderer emit_all set_trace].
  split; [apply in_or_app; now left|].
  split; [apply in_or_app; right; now left|].
  split; [intros ->; contradiction | reflexivity].
Qed.

(** *** The constructor, lines 6-13 *)

(** X17: the constructor leaves three empty queues, of sizes 1, 1 and 5, so
    whatever the other members are, the first cycle after it finds nothing to
    do but the service polls: it leaves the renderer and the mode as they
    were and adds only service polls to what has happened.  In a build
    without [BLE_ENABLED] it returns the object unchanged; in a build with
    [BLE_ENABLED], run before [onPowerUp] has set the service pointers, it
    goes through the NULL [vehicleService]. *)
Theorem first_cycle_after_construction_is_idle (s : App) :
  capacity (configUpdatedQueue (App_new s)) = 1
  /\ capacity (lightModeQueue (App_new s)) = 1
  /\ capacity (vehicleQueue (App_new s)) = 5
  /\ process (App_new s) = pollServices (App_new s)
  /\ (BLE_ENABLED = false -> process (App_new s) = Returned (App_new s))
  /\ (BLE_ENABLED = true -> vehicleService s = false ->
      process (App_new s) = Aborted NullDereference (App_new s))
  /\ renderer (outcome_state (process (App_new s))) = renderer s
  /\ lightMode (outcome_state (process (App_new s))) = lightMode s
  /\ trace (outcome_state (process (App_new s))) = trace s ++ polls_done (App_new s).
Proof.
  assert (Hn : no_signal_pending (App_new s)) by (split; reflexivity).
  assert (Hv : items (vehicleQueue (App_new s)) = []) by reflexivity.
  assert (Hp : process (App_new s) = pollServices (App_new s)).
  { rewrite (process_idle (App_new s) Hn Hv).
    change (service_events None (App_new s)) with (polls_done (App_new s)).
    symmetry. apply pollServices_ended. }
  do 3 (split; [reflexivity|]). split; [exact Hp|].
  split; [intros Hb; rewrite Hp; unfold pollServices; now rewrite Hb|].
  split.
  { intros Hb Hs. rewrite Hp. unfold pollServices.
    now rewrite Hb, (Hs : vehicleService (App_new s) = false). }
  rewrite Hp, pollServices_ended. unfold outcome_state. rewrite outcome_of_ended.
  repeat split.
Qed.

End Members.

(** *** The properties at concrete states *)
Import Scenario MoreScenario.

(** A fact about concrete states, by evaluation. *)
Ltac by_evaluation :=
  first [ vm_compute; reflexivity
        | let H := fresh in intro H; vm_compute in H; discriminate H ].

Lemma onPowerDown_keeps_the_renderer_pointer_witness :
  renderer rainbow_with_handle = Some (pattern_renderer "rainbow")
  /\ trace (onPowerDown rainbow_with_handle)
     = trace rainbow_with_handle ++ power_down_events rainbow_with_handle
  /\ power_down_events rainbow_with_handle
     = [TaskDelete 0; RendererShutdown (pattern_renderer "rainbow")]
  /\ onAccelerationStateChanged (platform := healthy) Braking (onPowerDown rainbow_with_handle)
     = emit_all (brake_channel (pattern_renderer "rainbow") rainbow_with_handle
                   (acceleration_command (platform := healthy) Braking))
         (onPowerDown rainbow_with_handle).
Proof.
  destruct (onPowerDown_keeps_the_renderer_pointer (platform := healthy) rainbow_with_handle)
    as (Ht & _ & _ & _ & _ & Hc).
  split; [by_evaluation|]. split; [exact Ht|]. split; [by_evaluation|].
  apply Hc. by_evaluation.
Defined.

Lemma setters_always_notify_witness :
  renderer boot = None
  /\ notifications
       (command_to (queue_of brakelightQueue boot) LightsOff
        ++ fanout (renderListeners boot)
             (mkLightCommands (lightMode boot) LightsOff NoCommand NoCommand))
     = deliveries (renderListeners boot)
         (mkLightCommands (lightMode boot) LightsOff NoCommand NoCommand)
  /\ onAccelerationStateChanged (platform := healthy) Braking boot = boot.
Proof.
  destruct (setters_always_notify (platform := healthy) LightsOff boot) as (_ & _ & _ & H).
  split; [by_evaluation|]. apply H. by_evaluation.
Defined.

Lemma setLightMode_outcomes_witness :
  setLightMode (platform := healthy) RainbowMode boot_with_handle
  = Aborted NullDereference (vTaskDelete 0 boot_with_handle).
Proof.
  destruct (setLightMode_outcomes (platform := healthy) RainbowMode boot_with_handle)
    as (_ & Hn & _).
  apply Hn. split; [by_evaluation|]. split; [by_evaluation|].
  exists 0. split; by_evaluation.
Defined.

Lemma unknown_mode_gets_the_running_renderer_witness :
  lightMode boot <> LightMode_other 7
  /\ exists s1 s2,
       setLightMode (platform := healthy) (LightMode_other 7) boot = Returned s1
       /\ renderer s1 = Some running_renderer
       /\ lightMode s1 = LightMode_other 7
       /\ setLightMode (platform := healthy) RunningMode s1 = Returned s2
       /\ lightMode s2 = RunningMode.
Proof.
  assert (Hm : lightMode boot <> LightMode_other 7) by by_evaluation.
  destruct (unknown_mode_gets_the_running_renderer (platform := healthy)
              7%N boot running_renderer Hm)
    as (s1 & s2 & H1 & _ & H3 & H4 & H5 & _ & H7); try by_evaluation.
  split; [exact Hm|]. exists s1, s2. repeat split; assumption.
Defined.

Lemma cycle_keeps_setup_and_tasks_witness :
  renderHostHandle rainbow_requested = None
  /\ same_setup rainbow_requested
       (outcome_state (process (platform := healthy) rainbow_requested))
  /\ renderHostHandle (outcome_state (process (platform := healthy) rainbow_requested)) = None
  /\ exists new,
       tasks (outcome_state (process (platform := healthy) rainbow_requested))
       = tasks rainbow_requested ++ new.
Proof.
  destruct (cycle_keeps_setup_and_tasks (platform := healthy) rainbow_requested) as (K & T).
  assert (Hh : renderHostHandle rainbow_requested = None) by by_evaluation.
  destruct (T Hh) as (H1 & H2).
  split; [exact Hh|]. split; [exact K|]. split; [exact H1 | exact H2].
Defined.

Lemma cycle_consumes_one_signal_each_witness :
  process (platform := healthy) rainbow_requested
  = Returned (outcome_state (process (platform := healthy) rainbow_requested))
  /\ items (lightModeQueue rainbow_requested) = [LightningMode]
  /\ items (lightModeQueue (outcome_state (process (platform := healthy) rainbow_requested)))
     = tl (items (lightModeQueue rainbow_requested))
  /\ items (vehicleQueue (outcome_state (process (platform := healthy) rainbow_requested)))
     = [].
Proof.
  assert (E : process (platform := healthy) rainbow_requested
              = Returned (outcome_state (process (platform := healthy) rainbow_requested)))
    by by_evaluation.
  destruct (cycle_consumes_one_signal_each (platform := healthy) _ _ E) as (_ & Hm & Hv).
  split; [exact E|]. split; [by_evaluation|]. split; [exact Hm | exact Hv].
Defined.

Lemma idle_cycle_only_polls_witness :
  no_signal_pending boot
  /\ items (vehicleQueue boot) = []
  /\ process (platform := wired) boot = Returned boot
  /\ no_signal_pending constructed
  /\ items (vehicleQueue constructed) = []
  /\ vehicleService constructed = false
  /\ process (platform := healthy) constructed = Aborted NullDereference constructed
  /\ process (platform := healthy) boot
     = Returned (emit_all [VehicleServiceProcess; BatteryServiceProcess;
                           UpdateServiceProcess] boot).
Proof.
  assert (Hn : no_signal_pending boot) by (split; by_evaluation).
  assert (Hv : items (vehicleQueue boot) = []) by by_evaluation.
  assert (Hn' : no_signal_pending constructed) by (split; by_evaluation).
  assert (Hv' : items (vehicleQueue constructed) = []) by by_evaluation.
  assert (Hs' : vehicleService constructed = false) by by_evaluation.
  destruct (idle_cycle_only_polls (platform := wired) boot Hn Hv) as (_ & H & _).
  destruct (idle_cycle_only_polls (platform := healthy) constructed Hn' Hv') as (_ & _ & H' & _).
  destruct (idle_cycle_only_polls (platform := healthy) boot Hn Hv) as (_ & _ & _ & H'').
  split; [exact Hn|]. split; [exact Hv|]. split; [apply H; reflexivity|].
  split; [exact Hn'|]. split; [exact Hv'|]. split; [exact Hs'|].
  split; [apply H'; [reflexivity | exact Hs'] | apply H''; by_evaluation].
Defined.

Lemma config_update_is_applied_only_if_valid_witness :
  lightMode (configured false []) <> ampConfig_prefs_renderer (configured false [])
  /\ process (platform := healthy) (configured false [])
     = pollServices (platform := healthy)
         (set_configUpdatedQueue (mkQueue 1 []) (configured false []))
  /\ pollServices (platform := healthy)
       (set_configUpdatedQueue (mkQueue 1 []) (configured false []))
     = Returned (emit_all [VehicleServiceProcess; BatteryServiceProcess; UpdateServiceProcess]
                   (set_configUpdatedQueue (mkQueue 1 []) (configured false []))).
Proof.
  split; [by_evaluation|]. split; [|by_evaluation].
  apply (config_update_is_applied_only_if_valid (platform := healthy)
           (configured false []) 1 false []); by_evaluation.
Defined.

Lemma mode_request_is_served_before_vehicle_state_witness :
  services_ok (platform := healthy) rainbow_requested = true
  /\ exists s',
       process (platform := healthy) rainbow_requested = Returned s'
       /\ lightMode s' = LightningMode
       /\ renderer s' = Some (pattern_renderer "lightning")
       /\ vehicleState s' = stateA
       /\ items (lightModeQueue s') = [].
Proof.
  assert (Hok : services_ok (platform := healthy) rainbow_requested = true) by by_evaluation.
  destruct (mode_request_is_served_before_vehicle_state (platform := healthy)
              rainbow_requested LightningMode [] 1 5 [] stateA (pattern_renderer "lightning"))
    as (s' & es & _ & H1 & _ & _ & _ & _ & H6 & H7 & H8 & H9); try by_evaluation.
  split; [exact Hok|]. exists s'. split; [exact (H1 Hok)|]. repeat split; assumption.
Defined.

Lemma config_update_then_mode_request_witness :
  services_ok (platform := healthy) (configured true [RainbowMode]) = true
  /\ exists s' es,
       process (platform := healthy) (configured true [RainbowMode]) = Returned s'
       /\ trace s' = trace (configured true [RainbowMode]) ++ es
       /\ renderers_built es = [pattern_renderer "theater-chase"; pattern_renderer "rainbow"]
       /\ renderers_shut_down es = []
       /\ lightMode s' = RainbowMode.
Proof.
  assert (Hok : services_ok (platform := healthy) (configured true [RainbowMode]) = true)
    by by_evaluation.
  destruct (config_update_then_mode_request (platform := healthy)
              (configured true [RainbowMode]) 1 1 [] RainbowMode []
              (pattern_renderer "theater-chase") (pattern_renderer "rainbow"))
    as (s' & es & _ & H1 & H2 & H3 & H4 & _ & _ & _ & H8 & _); try by_evaluation.
  split; [exact Hok|]. exists s', es. split; [exact (H1 Hok)|]. repeat split; assumption.
Defined.

Lemma every_mode_change_adds_a_task_witness :
  mode_changes (lightMode boot) four_requests = 3
  /\ exists s',
       setLightModes (platform := healthy) four_requests boot = Returned s'
       /\ tasks s' = tasks boot ++ seq (nextTask boot) (mode_changes (lightMode boot) four_requests)
       /\ renderHostHandle s' = None.
Proof.
  destruct (every_mode_change_adds_a_task (platform := healthy) four_requests boot)
    as (s' & es & H1 & _ & _ & _ & _ & H6 & _ & H8 & _).
  - by_evaluation.
  - intros m _. destruct m; discriminate.
  - split; [by_evaluation|]. exists s'. repeat split; assumption.
Defined.

Lemma render_host_processes_the_installed_renderer_witness :
  Forall (fun app => renderer app = None) [boot; boot]
  /\ startRenderHost [boot; boot] = [MotionReset; Delay 50; Delay 50]
  /\ startRenderHost ([boot; rainbow] ++ [onPowerDown rainbow])
     = startRenderHost [boot; rainbow]
       ++ [RendererProcess (pattern_renderer "rainbow"); Delay 50]
  /\ renderers_processed (startRenderHost [boot; rainbow; rainbow])
     = [pattern_renderer "rainbow"; pattern_renderer "rainbow"]
  /\ delayed (startRenderHost [boot; rainbow; rainbow]) = 150.
Proof.
  destruct (render_host_processes_the_installed_renderer [boot; boot])
    as (_ & _ & _ & _ & _ & _ & H & _).
  destruct (render_host_processes_the_installed_renderer [boot; rainbow])
    as (_ & _ & _ & T & _).
  destruct (render_host_processes_the_installed_renderer [boot; rainbow; rainbow])
    as (_ & _ & _ & _ & P & _ & _ & D).
  assert (F : Forall (fun app => renderer app = None) [boot; boot])
    by (repeat constructor).
  split; [exact F|]. split; [exact (H F)|].
  split; [exact (T (onPowerDown rainbow))|].
  split; [rewrite P; by_evaluation | exact D].
Defined.

Lemma render_host_outlives_power_down_witness :
  renderHostHandle rainbow = None
  /\ tasks rainbow = [0]
  /\ trace (onPowerDown rainbow)
     = trace rainbow ++ [RendererShutdown (pattern_renderer "rainbow")]
  /\ In 0 (tasks (onPowerDown rainbow))
  /\ renderHost_turn (onPowerDown rainbow)
     = [RendererProcess (pattern_renderer "rainbow"); Delay 50].
Proof.
  destruct (render_host_outlives_power_down rainbow (pattern_renderer "rainbow") 0)
    as (H1 & H2 & H3); try by_evaluation; [vm_compute; now left|].
  split; [by_evaluation|]. split; [by_evaluation|].
  split; [exact H1|]. split; [exact H2 | exact H3].
Defined.

Lemma old_render_host_processes_the_new_renderer_witness :
  exists s',
    setLightMode (platform := healthy) LightningMode rainbow = Returned s'
    /\ In 0 (tasks s')
    /\ In 1 (tasks s')
    /\ renderHost_turn s' = [RendererProcess (pattern_renderer "lightning"); Delay 50].
Proof.
  destruct (old_render_host_processes_the_new_renderer (platform := healthy)
              LightningMode rainbow (pattern_renderer "lightning") 0)
    as (s' & H1 & H2 & H3 & _ & H5); try by_evaluation.
  - vm_compute. now left.
  - vm_compute. intros [H|[]]. discriminate H.
  - exists s'. repeat split; assumption.
Defined.

Lemma first_cycle_after_construction_is_idle_witness :
  vehicleService constructed = false
  /\ process (platform := healthy) constructed = Aborted NullDereference constructed
  /\ process (platform := wired) constructed = Returned constructed.
Proof.
  destruct (first_cycle_after_construction_is_idle (platform := healthy) constructed)
    as (_ & _ & _ & _ & _ & Hb & _).
  destruct (first_cycle_after_construction_is_idle (platform := wired) constructed)
    as (_ & _ & _ & _ & Hw & _).
  assert (Hs : vehicleService constructed = false) by by_evaluation.
  split; [exact Hs|].
  split; [exact (Hb eq_refl Hs) | exact (Hw eq_refl)].
Defined.

End AppMoreTheory.
